(** * MCS-Agent: the chat pass-through service

    A shallow embedding of the request pipeline of MCS-Agent
    ([app/main.py], [app/routers/chat.py], [app/services/chat_model.py],
    [app/utils/exceptions.py], [app/utils/logger.py]) and the properties of
    its specification, proved over it.

    Conventions of the embedding.
    - A Python [str] is a [string]; [len] is [String.length].
    - A Python [int] is a [Z]. A finite Python [float] is the rational it
      denotes, a [Q]: the only float operations of the code are comparisons
      against the declared bounds, which are exact on finite values.
    - A [dict] is an association list in insertion order.
    - Code that logs, calls the upstream API or raises runs in the monad
      [M]: an explicit world (the log records emitted so far and the calls
      made to the upstream API so far) and an outcome that is either a value
      or a raised exception.
    - The upstream API, the configuration object and the two rendering
      functions [json.dumps] and [str] are not part of the sources; they
      are parameters ([Env], [Config], section variables). *)

From Stdlib Require Import ZArith QArith List String Ascii Bool Lia.
From Stdlib Require Import Numbers.DecimalString.
Import ListNotations.

Local Open Scope string_scope.
Local Open Scope Z_scope.

(* ================================================================== *)
(** * Python values, strings and exceptions *)

Module Py.

(** The Python values that travel as log fields and as keyword options. *)
#[local] Set Warnings "-register-all".
Inductive pyval : Type :=
| PNone
| PBool (b : bool)
| PInt (z : Z)
| PFloat (q : Q)
| PStr (s : string)
| PList (l : list pyval)
| PDict (d : list (string * pyval)).

(** A dict literal, a [model_dump()] result, [**kwargs]. *)
Definition dict : Type := list (string * pyval).

Definition keys (d : dict) : list string := map fst d.

(** [len(s)] as a Python int. *)
Definition len (s : string) : Z := Z.of_nat (String.length s).

(** [bool(s)] of a string: the empty string is falsy. *)
Definition truthy (s : string) : bool := negb (String.eqb s "").

(** [s[:k]]: the first [k] characters, and for a negative [k] all but the
    last [-k] ones. *)
Definition slice_to (s : string) (k : Z) : string :=
  if 0 <=? k then substring 0 (Z.to_nat k) s
  else substring 0 (Z.to_nat (len s + k)) s.

(** [needle in hay] on strings. *)
Fixpoint str_in (needle hay : string) : bool :=
  if prefix needle hay then true
  else match hay with
       | EmptyString => false
       | String _ rest => str_in needle rest
       end.

(** [str(n)] of an int. *)
Definition str_int (n : Z) : string := NilZero.string_of_int (Z.to_int n).

(** Exception objects. [ChatModelError] is [app/utils/exceptions.py],
    [HTTPException] is the framework's; every other exception object is a
    [PyError], which records whether its class derives from [Exception]
    (it does not for [asyncio.CancelledError], [KeyboardInterrupt],
    [SystemExit]), its class name and its text. *)
Inductive exn : Type :=
| ChatModelError (message : string)
| HTTPException (status_code : Z) (detail : string)
| PyError (derives_Exception : bool) (class_name : string) (text : string).

(** [type(e).__name__] *)
Definition type_name (e : exn) : string :=
  match e with
  | ChatModelError _ => "ChatModelError"
  | HTTPException _ _ => "HTTPException"
  | PyError _ name _ => name
  end.

(** [str(e)]; [ChatModelError.__str__] returns [self.message]. *)
Definition str (e : exn) : string :=
  match e with
  | ChatModelError message => message
  | HTTPException status_code detail => str_int status_code ++ ": " ++ detail
  | PyError _ _ text => text
  end.

(** [isinstance(e, Exception)] *)
Definition isinstance_Exception (e : exn) : bool :=
  match e with
  | ChatModelError _ => true
  | HTTPException _ _ => true
  | PyError b _ _ => b
  end.

(** [isinstance(e, ChatModelError)] *)
Definition isinstance_ChatModelError (e : exn) : bool :=
  match e with
  | ChatModelError _ => true
  | _ => false
  end.

End Py.

(* ================================================================== *)
(** * The upstream client's types *)

Module openai.

(** A chat message as the request model accepts it:
    [ChatCompletionMessageParam], a union of dict types told apart by their
    role, here with text content. A dict that fits none of them (an unknown
    role, a tool message without [tool_call_id]) is no value of this type:
    the route answers such a body with 422 before the handler runs. *)
Inductive MessageParam : Type :=
| SystemMessage (content : string) (name : option string)
| UserMessage (content : string) (name : option string)
| AssistantMessage (content : string) (name : option string)
| ToolMessage (content : string) (tool_call_id : string)
| FunctionMessage (content : option string) (name : string).

(** The value under the key [role]. *)
Definition role (m : MessageParam) : string :=
  match m with
  | SystemMessage _ _ => "system"
  | UserMessage _ _ => "user"
  | AssistantMessage _ _ => "assistant"
  | ToolMessage _ _ => "tool"
  | FunctionMessage _ _ => "function"
  end.

Record ChatCompletionMessage : Type :=
  { message_role : string; message_content : option string }.

Record Choice : Type :=
  { finish_reason : string; index : Z; message : ChatCompletionMessage }.

(** [CompletionUsage]: the program reads nothing of it but what its
    [model_dump()] returns, which the client library computes. *)
Record CompletionUsage : Type := { usage_model_dump : Py.dict }.

(** [ChatCompletion], with the fields this program reads, and what its
    [model_dump()] returns, which the client library computes from all the
    fields of its types. *)
Record ChatCompletion : Type :=
  { id : string;
    choices : list Choice;
    created : Z;
    model : string;
    usage : option CompletionUsage;
    model_dump : Py.dict }.

(** [AsyncOpenAI(base_url=..., api_key=...)] *)
Record AsyncOpenAI : Type := { base_url : string; api_key : string }.

(** The arguments of one [chat.completions.create(model=..., messages=...,
    **options)] call. *)
Record CreateCall : Type :=
  { call_model : string;
    call_messages : list MessageParam;
    call_options : Py.dict }.

Definition opt_str (o : option string) : Py.pyval :=
  match o with Some s => Py.PStr s | None => Py.PNone end.

End openai.

(* ================================================================== *)
(** * Effects: the world, outcomes, and the monad of handlers *)

Module Eff.

Inductive Level : Type := DEBUG | INFO | WARNING | ERROR | CRITICAL.

(** One record handed to the logging backend: level, message and the
    bound structured fields. *)
Record LogRecord : Type :=
  { level : Level; message : string; extra : Py.dict }.

(** What a handler can observe and change: the records logged so far and
    the calls made to the upstream API so far, oldest first. *)
Record World : Type :=
  { logs : list LogRecord; upstream_calls : list openai.CreateCall }.

Inductive outcome (A : Type) : Type :=
| Return (a : A)
| Raise (e : Py.exn).
Arguments Return {A} a.
Arguments Raise {A} e.

Definition M (A : Type) : Type := World -> outcome A * World.

Definition ret {A} (a : A) : M A := fun w => (Return a, w).

Definition raise {A} (e : Py.exn) : M A := fun w => (Raise e, w).

Definition bind {A B} (m : M A) (k : A -> M B) : M B :=
  fun w =>
    match m w with
    | (Return a, w') => k a w'
    | (Raise e, w') => (Raise e, w')
    end.

(** [try: body / except <class> as e: handler]. The clause is a partial
    function: [None] on an exception the clause does not match, which then
    propagates. *)
Definition try_except {A} (body : M A) (clause : Py.exn -> option (M A)) : M A :=
  fun w =>
    match body w with
    | (Return a, w') => (Return a, w')
    | (Raise e, w') =>
        match clause e with
        | Some handler => handler w'
        | None => (Raise e, w')
        end
    end.

Definition level_eqb (a b : Level) : bool :=
  match a, b with
  | DEBUG, DEBUG | INFO, INFO | WARNING, WARNING
  | ERROR, ERROR | CRITICAL, CRITICAL => true
  | _, _ => false
  end.

(** The records of a log at a given level. *)
Definition at_level (l : Level) (rs : list LogRecord) : list LogRecord :=
  filter (fun r => level_eqb (level r) l) rs.

End Eff.

Declare Scope eff_scope.
Delimit Scope eff_scope with eff.
Notation "x <- m ;; k" := (Eff.bind m (fun x => k))
  (at level 61, m at next level, right associativity) : eff_scope.
Notation "m ;; k" := (Eff.bind m (fun _ => k))
  (at level 61, right associativity) : eff_scope.

(* ================================================================== *)
(** * app/utils/logger.py *)

Module logger.

Section Rendering.

(** [json.dumps(value, separators=(",", ":"), default=str)], [None] when it
    raises; and [str(value)]. Both belong to the Python runtime. *)
Variable json_dumps : Py.pyval -> option string.
Variable py_str : Py.pyval -> string.

(** The first statement of [_truncate_value]: the string rendering of the
    value. *)
Definition render (value : Py.pyval) : string :=
  match value with
  | Py.PStr s => s
  | Py.PDict _ | Py.PList _ =>
      match json_dumps value with
      | Some result => result
      | None => py_str value
      end
  | _ => py_str value
  end.

Definition _truncate_value (value : Py.pyval) (max_len : Z) : string :=
  let result := render value in
  if Py.len result >? max_len
  then Py.slice_to result (max_len - 3) ++ "..."
  else result.

End Rendering.

(** The default of the [max_len] parameter. *)
Definition max_len_default : Z := 100.

(** [LoggerWrapper]'s leveled methods: [extra] is bound to the record when
    it is given and not empty. *)
Definition emit (l : Eff.Level) (message : string) (extra : option Py.dict)
  : Eff.M unit :=
  fun w =>
    let bound := match extra with
                 | Some (f :: fs) => f :: fs
                 | Some [] => []
                 | None => []
                 end in
    (Eff.Return tt,
     {| Eff.logs := (Eff.logs w
                     ++ [{| Eff.level := l; Eff.message := message; Eff.extra := bound |}])%list;
        Eff.upstream_calls := Eff.upstream_calls w |}).

Definition info := emit Eff.INFO.
Definition debug := emit Eff.DEBUG.
Definition warning := emit Eff.WARNING.
Definition error := emit Eff.ERROR.
Definition critical := emit Eff.CRITICAL.

(** ** [_strip_color_tags] *)

(** The strings the pattern [</?(?:green|level|cyan|blue|yellow)>]
    matches. *)
Definition color_tags : list string :=
  ["<green>"; "</green>"; "<level>"; "</level>"; "<cyan>"; "</cyan>";
   "<blue>"; "</blue>"; "<yellow>"; "</yellow>"].

(** The length of the match of the pattern at the start of [s], if it
    matches there. *)
Definition tag_at (s : string) : option nat :=
  option_map String.length (find (fun t => prefix t s) color_tags).

(** [re.sub(pattern, "", text)], scanning left to right: a match is
    dropped and the scan resumes after it ([skip] counts the characters of
    the current match still to drop); any other character is kept. *)
Fixpoint sub_tags (skip : nat) (s : string) : string :=
  match s with
  | EmptyString => EmptyString
  | String c rest =>
      match skip with
      | S k => sub_tags k rest
      | O =>
          match tag_at s with
          | Some n => sub_tags (Nat.pred n) rest
          | None => String c (sub_tags 0 rest)
          end
      end
  end.

Definition _strip_color_tags (text : string) : string := sub_tags 0 text.

(** ** [format_record] *)

(** [s.replace(old, new)] for a one-character [old]. *)
Fixpoint replace_char (old : ascii) (new : string) (s : string) : string :=
  match s with
  | EmptyString => EmptyString
  | String c rest =>
      if Ascii.eqb c old then new ++ replace_char old new rest
      else String c (replace_char old new rest)
  end.

(** [s.replace("{", "{{").replace("}", "}}")] *)
Definition escape_braces (s : string) : string :=
  replace_char "}" "}}" (replace_char "{" "{{" s).

(** The line feed, and the tail every format ends with. *)
Definition newline : string := String (ascii_of_nat 10) EmptyString.
Definition exception_tail : string := newline ++ "{exception}".

(** The [base] format of [format_record]. *)
Definition base_format : string :=
  "<green>{time:YYYY-MM-DD HH:mm:ss.SSS}</green> | "
  ++ "<level>{level: <8}</level> | "
  ++ "<cyan>{name}</cyan>:<cyan>{function}</cyan>:<cyan>{line}</cyan> - "
  ++ "<level>{message}</level>".

(** A loguru record, as far as [format_record] reads it: the value under
    the key [extra], if the key is there. *)
Record Record_ : Type := { record_extra : option Py.dict }.

(** [{k: v for k, v in extra.items() if not k.startswith("_")}] *)
Definition display_extra (extra : Py.dict) : Py.dict :=
  filter (fun kv => negb (prefix "_" (fst kv))) extra.

Section Formatting.

Variable json_dumps : Py.pyval -> option string.
Variable py_str : Py.pyval -> string.

(** One pass of the loop over [display_extra.items()]. *)
Definition extra_part (kv : string * Py.pyval) : string :=
  let safe_key := escape_braces (fst kv) in
  let truncated := _truncate_value json_dumps py_str (snd kv) max_len_default in
  let safe_value := escape_braces truncated in
  "<blue>" ++ safe_key ++ "</blue>=<yellow>" ++ safe_value ++ "</yellow>".

Definition format_record (record : Record_) : string :=
  let base := base_format in
  let extra := match record_extra record with Some d => d | None => [] end in
  let base :=
    match extra with
    | [] => base
    | _ :: _ =>
        match display_extra extra with
        | [] => base
        | kv :: kvs =>
            base ++ " | " ++ String.concat " " (map extra_part (kv :: kvs))
        end
    end in
  base ++ exception_tail.

(** The format of the two plain-text file sinks. *)
Definition file_format (record : Record_) : string :=
  _strip_color_tags (format_record record).

End Formatting.

(** ** [InterceptHandler] *)

(** A record of the standard [logging] module, as far as [emit] reads
    it. *)
Record StdRecord : Type :=
  { name : string;
    levelno : Z;
    levelname : string;
    exc_info : option Py.exn;
    getMessage : string }.

Definition logging_INFO : Z := 20.

(** What [emit] hands to [logger.opt(depth=..., exception=...).log]. *)
Record Forwarded : Type :=
  { forwarded_level : string + Z;
    forwarded_depth : Z;
    forwarded_exception : option Py.exn;
    forwarded_message : string }.

(** The [while] loop of [emit] on the stack, given as the file names of
    the frames from the current one outwards: it leaves the frames of the
    [logging] module's file behind and counts them. *)
Fixpoint skip_logging_frames (logging_file : string) (frames : list string) (depth : Z)
  : list string * Z :=
  match frames with
  | [] => ([], depth)
  | f :: back =>
      if String.eqb f logging_file
      then skip_logging_frames logging_file back (depth + 1)
      else (f :: back, depth)
  end.

(** [InterceptHandler.emit]. [loguru_level] is the logging backend's
    level registry: the name of the level registered under a name, [None]
    where the lookup raises [ValueError]. *)
Definition intercept_emit (loguru_level : string -> option string)
  (logging_file : string) (frames : list string) (record : StdRecord)
  : option Forwarded :=
  if String.eqb (name record) "uvicorn" && (levelno record <? logging_INFO)
  then None
  else
    let level := match loguru_level (levelname record) with
                 | Some registered => inl registered
                 | None => inr (levelno record)
                 end in
    let (_, depth) := skip_logging_frames logging_file frames 2 in
    Some {| forwarded_level := level;
            forwarded_depth := depth;
            forwarded_exception := exc_info record;
            forwarded_message := getMessage record |}.

(** ** [LoggerWrapper] with bound context *)

(** [d[k] = v]: the value of an existing key is replaced in place, a new
    key goes last. *)
Fixpoint dict_set (k : string) (v : Py.pyval) (d : Py.dict) : Py.dict :=
  match d with
  | [] => [(k, v)]
  | (k', v') :: rest =>
      if String.eqb k' k then (k', v) :: rest else (k', v') :: dict_set k v rest
  end.

(** [{**d, **kwargs}]: what binding [kwargs] makes of the fields [d]
    already bound. *)
Definition dict_update (d kwargs : Py.dict) : Py.dict :=
  fold_left (fun acc kv => dict_set (fst kv) (snd kv) acc) kwargs d.

(** [d.get(k)] *)
Fixpoint dict_get (k : string) (d : Py.dict) : option Py.pyval :=
  match d with
  | [] => None
  | (k', v) :: rest => if String.eqb k' k then Some v else dict_get k rest
  end.

(** A logger object: the logging backend's logger with the fields bound
    to it, or a [LoggerWrapper] around a logger object (its [_logger]). *)
Inductive Logger : Type :=
| Loguru (bound : Py.dict)
| LoggerWrapper (_logger : Logger).

(** The module's [logger]: a wrapper around the backend's logger, nothing
    bound. *)
Definition root : Logger := LoggerWrapper (Loguru []).

(** What the call [LoggerWrapper.bind(self, **context)] raises when
    [context] has the key [self]: the name is taken by the receiver. *)
Definition TypeError_self : Py.exn :=
  Py.PyError true "TypeError"
    "LoggerWrapper.bind() got multiple values for argument 'self'".

(** [lg.bind( **kwargs )]. The backend's logger binds any key; a
    [LoggerWrapper] returns a wrapper around what its [_logger] binds, and
    cannot be called with the key [self]. *)
Fixpoint bind (lg : Logger) (kwargs : Py.dict) : Eff.outcome Logger :=
  match lg with
  | Loguru bound => Eff.Return (Loguru (dict_update bound kwargs))
  | LoggerWrapper _logger =>
      if existsb (String.eqb "self") (Py.keys kwargs) then Eff.Raise TypeError_self
      else match bind _logger kwargs with
           | Eff.Return bound_logger => Eff.Return (LoggerWrapper bound_logger)
           | Eff.Raise e => Eff.Raise e
           end
  end.

(** [lg.opt( **options )], as far as the fields of the record go: a
    [LoggerWrapper] passes the call to its [_logger], so the call ends at
    the backend's logger, whose bound fields the record gets. *)
Fixpoint opt (lg : Logger) : Py.dict :=
  match lg with
  | Loguru bound => bound
  | LoggerWrapper _logger => opt _logger
  end.

(** [get_logger( **context )]: [LoggerWrapper(logger.bind( **context ))],
    where [logger] is the module's [logger]. *)
Definition get_logger (context : Py.dict) : Eff.outcome Logger :=
  match bind root context with
  | Eff.Return bound_logger => Eff.Return (LoggerWrapper bound_logger)
  | Eff.Raise e => Eff.Raise e
  end.

(** A leveled method of the [LoggerWrapper] whose [_logger] is given: a
    given, non-empty [extra] is bound to [_logger] for this record. *)
Definition log (_logger : Logger) (l : Eff.Level) (message : string)
  (extra : option Py.dict) : Eff.M unit :=
  fun w =>
    let target := match extra with
                  | Some (f :: fs) => bind _logger (f :: fs)
                  | Some [] => Eff.Return _logger
                  | None => Eff.Return _logger
                  end in
    match target with
    | Eff.Return lg =>
        (Eff.Return tt,
         {| Eff.logs := (Eff.logs w
                         ++ [{| Eff.level := l; Eff.message := message;
                                Eff.extra := opt lg |}])%list;
            Eff.upstream_calls := Eff.upstream_calls w |})
    | Eff.Raise e => (Eff.Raise e, w)
    end.

End logger.

(* ================================================================== *)
(** * app/utils/config.py, and the environment of a request *)

Module config.

(** Modelled from the spec: [app/utils/config.py] is not among the sources.
    The spec's Config entity: "host, port, logging level, upstream base
    URL, upstream API key (secret), default model name. Created once at
    process start from environment; never mutated." The key is the value
    [get_secret_value()] returns. *)
Record Config : Type :=
  { server_host : string;
    server_port : Z;
    logging_level : option string;
    llm_base_url : string;
    llm_api_key : string;
    llm_name : string }.

End config.

Module Env.

(** What a request runs against: the process-wide [config] object and the
    upstream API, which answers a [create] call made through a client with
    a completion or by raising. *)
Record t : Type :=
  { config : config.Config;
    completions_create :
      openai.AsyncOpenAI -> openai.CreateCall -> Eff.outcome openai.ChatCompletion }.

End Env.

(* ================================================================== *)
(** * app/services/chat_model.py *)

Module chat_model.

(** A validated [ChatModelHyperparams]. *)
Record ChatModelHyperparams : Type :=
  { temperature : Q;
    max_tokens : Z;
    top_p : Q;
    frequency_penalty : Q;
    presence_penalty : Q;
    n : Z;
    stop : list string;
    stream : bool;
    logprobs : option Z }.

(** The input of the model's construction, for values of the declared
    types: each field given or left out; [logprobs] may also be given as
    [None]. An input with a value of another type (a string for [stop], a
    list for [stream]) fails the same validation with a type error; such
    inputs are no values of this type, and nothing here speaks of them. *)
Record RawHyperparams : Type :=
  { raw_temperature : option Q;
    raw_max_tokens : option Z;
    raw_top_p : option Q;
    raw_frequency_penalty : option Q;
    raw_presence_penalty : option Q;
    raw_n : option Z;
    raw_stop : option (list string);
    raw_stream : option bool;
    raw_logprobs : option (option Z) }.

(** One entry of a [ValidationError]: the field and the constraint it
    breaks. *)
Record ErrorDetails : Type := { loc : string; type : string }.

(** [Field(ge=lo, le=hi)] on a given value. *)
Definition check_bounds {A} (leb : A -> A -> bool) (name : string) (lo hi x : A)
  : list ErrorDetails :=
  if negb (leb lo x) then [{| loc := name; type := "greater_than_equal" |}]
  else if negb (leb x hi) then [{| loc := name; type := "less_than_equal" |}]
  else [].

(** A field that is left out takes its default, which is not validated. *)
Definition check_field {A} (leb : A -> A -> bool) (name : string) (lo hi : A)
  (given : option A) : list ErrorDetails :=
  match given with
  | Some x => check_bounds leb name lo hi x
  | None => []
  end.

Definition with_default {A} (default : A) (given : option A) : A :=
  match given with
  | Some x => x
  | None => default
  end.

(** The constraint violations of a well-typed input, in the order the
    fields are declared. *)
Definition validation_errors (raw : RawHyperparams) : list ErrorDetails :=
  (check_field Qle_bool "temperature" 0%Q 1%Q (raw_temperature raw)
   ++ check_field Z.leb "max_tokens" 1 8192 (raw_max_tokens raw)
   ++ check_field Qle_bool "top_p" 0%Q 1%Q (raw_top_p raw)
   ++ check_field Qle_bool "frequency_penalty" 0%Q 1%Q (raw_frequency_penalty raw)
   ++ check_field Qle_bool "presence_penalty" 0%Q 1%Q (raw_presence_penalty raw)
   ++ check_field Z.leb "n" 1 10 (raw_n raw)
   ++ match raw_logprobs raw with
      | Some (Some k) => check_bounds Z.leb "logprobs" 0 10 k
      | Some None => []
      | None => []
      end)%list.

(** The construction of a [ChatModelHyperparams] from the given fields:
    the validated model, or the errors of the [ValidationError] it raises. *)
Definition model_validate (raw : RawHyperparams)
  : list ErrorDetails + ChatModelHyperparams :=
  match validation_errors raw with
  | [] =>
      inr {| temperature := with_default 0.7%Q (raw_temperature raw);
             max_tokens := with_default 1000 (raw_max_tokens raw);
             top_p := with_default 1.0%Q (raw_top_p raw);
             frequency_penalty := with_default 0.0%Q (raw_frequency_penalty raw);
             presence_penalty := with_default 0.0%Q (raw_presence_penalty raw);
             n := with_default 1 (raw_n raw);
             stop := with_default [] (raw_stop raw);
             stream := with_default false (raw_stream raw);
             logprobs := with_default None (raw_logprobs raw) |}
  | e :: es => inl (e :: es)
  end.

(** [hyperparams.model_dump()]: every declared field, in declaration
    order. *)
Definition model_dump (h : ChatModelHyperparams) : Py.dict :=
  [("temperature", Py.PFloat (temperature h));
   ("max_tokens", Py.PInt (max_tokens h));
   ("top_p", Py.PFloat (top_p h));
   ("frequency_penalty", Py.PFloat (frequency_penalty h));
   ("presence_penalty", Py.PFloat (presence_penalty h));
   ("n", Py.PInt (n h));
   ("stop", Py.PList (map Py.PStr (stop h)));
   ("stream", Py.PBool (stream h));
   ("logprobs", match logprobs h with
                | Some k => Py.PInt k
                | None => Py.PNone
                end)].

(** The attributes of a [ChatModelService] object. *)
Record Service : Type :=
  { config : config.Config;
    llm_base_url : string;
    llm_api_key : string;
    llm_name : string;
    hyperparams : option ChatModelHyperparams;
    _client : openai.AsyncOpenAI }.

Module ChatModelService.

Local Open Scope eff_scope.

(** The attribute assignments of [__init__]. *)
Definition attributes (config : config.Config)
  (hyperparams : option ChatModelHyperparams) (model_name : option string)
  : Service :=
  {| config := config;
     llm_base_url := config.llm_base_url config;
     llm_api_key := config.llm_api_key config;
     llm_name := match model_name with
                 | Some name =>
                     if negb (Py.truthy name) then config.llm_name config else name
                 | None => config.llm_name config
                 end;
     hyperparams := hyperparams;
     _client := {| openai.base_url := config.llm_base_url config;
                   openai.api_key := config.llm_api_key config |} |}.

Definition __init__ (config : config.Config)
  (hyperparams : option ChatModelHyperparams) (model_name : option string)
  : Eff.M Service :=
  let self := attributes config hyperparams model_name in
  logger.info "Initialized ChatModelService"
    (Some [("model_name", Py.PStr (llm_name self));
           ("base_url", Py.PStr (llm_base_url self));
           ("hyperparams", match chat_model.hyperparams self with
                           | Some h => Py.PDict (model_dump h)
                           | None => Py.PNone
                           end)]) ;;
  Eff.ret self.

(** [await self._client.chat.completions.create(...)]: the call is
    recorded, and the upstream API decides its outcome. *)
Definition create (env : Env.t) (client : openai.AsyncOpenAI) (call : openai.CreateCall)
  : Eff.M openai.ChatCompletion :=
  fun w =>
    (Env.completions_create env client call,
     {| Eff.logs := Eff.logs w;
        Eff.upstream_calls := (Eff.upstream_calls w ++ [call])%list |}).

(** The keyword options of the call: the dumped hyperparameters, or none.
    A model object is always truthy. *)
Definition options (self : Service) : Py.dict :=
  match hyperparams self with
  | Some h => model_dump h
  | None => []
  end.

(** The arguments [chat] passes to [create]. *)
Definition create_arguments (self : Service) (messages : list openai.MessageParam)
  : openai.CreateCall :=
  {| openai.call_model := llm_name self;
     openai.call_messages := messages;
     openai.call_options := options self |}.

Definition chat (env : Env.t) (self : Service) (messages : list openai.MessageParam)
  : Eff.M openai.ChatCompletion :=
  logger.debug "Initiating chat completion"
    (Some [("model", Py.PStr (llm_name self));
           ("message_count", Py.PInt (Z.of_nat (List.length messages)));
           ("hyperparams", Py.PDict (options self))]) ;;
  Eff.try_except
    (completion <- create env (_client self) (create_arguments self messages) ;;
     logger.debug "Chat completion received"
       (Some [("completion", Py.PDict (openai.model_dump completion))]) ;;
     logger.info "Chat completion successful"
       (Some [("model", Py.PStr (openai.model completion));
              ("num_choices", Py.PInt (Z.of_nat (List.length (openai.choices completion))));
              ("finish_reasons",
               Py.PList (map (fun c => Py.PStr (openai.finish_reason c))
                             (openai.choices completion)));
              ("usage", match openai.usage completion with
                        | Some u => Py.PDict (openai.usage_model_dump u)
                        | None => Py.PNone
                        end)]) ;;
     Eff.ret completion)
    (fun e =>
       if Py.isinstance_Exception e then
         Some (logger.error "Chat completion failed"
                 (Some [("model", Py.PStr (llm_name self));
                        ("error_type", Py.PStr (Py.type_name e));
                        ("error_message", Py.PStr (Py.str e))]) ;;
               Eff.raise (Py.ChatModelError ("Error chatting with model: " ++ Py.str e)))
       else None).

End ChatModelService.

End chat_model.

(* ================================================================== *)
(** * The web framework, as far as the routes' declarations fix it *)

Module fastapi.

Inductive Body (A : Type) : Type :=
| Json (a : A)                                         (* the route's own payload *)
| Detail (detail : string)                             (* {"detail": ...} *)
| ValidationErrors (errors : list chat_model.ErrorDetails).
Arguments Json {A} a.
Arguments Detail {A} detail.
Arguments ValidationErrors {A} errors.

(** What the framework makes of a request: a response, or an exception it
    has no handler for, left to the server's default handling. *)
Inductive Served (A : Type) : Type :=
| Responded (status_code : Z) (body : Body A)
| Propagated (e : Py.exn).
Arguments Responded {A} status_code body.
Arguments Propagated {A} e.

Definition HTTP_200_OK : Z := 200.
Definition HTTP_422_UNPROCESSABLE_ENTITY : Z := 422.
Definition HTTP_500_INTERNAL_SERVER_ERROR : Z := 500.

(** A route function's outcome as a response: its return value under the
    route's status code, an [HTTPException] as its status code and detail;
    any other exception is not the framework's to answer. *)
Definition respond {A} (status_code : Z) (o : Eff.outcome A) : Served A :=
  match o with
  | Eff.Return a => Responded status_code (Json a)
  | Eff.Raise (Py.HTTPException code detail) => Responded code (Detail detail)
  | Eff.Raise e => Propagated e
  end.

End fastapi.

(* ================================================================== *)
(** * app/routers/chat.py *)

Module chat.

Record ChatRequest : Type :=
  { messages : list openai.MessageParam;
    hyperparams : option chat_model.ChatModelHyperparams;
    model_name : option string }.

Record ChatResponse : Type := { choices : list openai.Choice }.

(** The request body before validation, for a body whose messages are
    chat messages and whose hyperparameter values are of the declared
    types. *)
Record RawChatRequest : Type :=
  { raw_messages : list openai.MessageParam;
    raw_hyperparams : option chat_model.RawHyperparams;
    raw_model_name : option string }.

(** The validation of such a body against [ChatRequest]: its messages and
    model name pass as they are (a list of messages may be empty), its
    hyperparameters are validated against their bounds. *)
Definition validate (raw : RawChatRequest)
  : list chat_model.ErrorDetails + ChatRequest :=
  match raw_hyperparams raw with
  | None =>
      inr {| messages := raw_messages raw;
             hyperparams := None;
             model_name := raw_model_name raw |}
  | Some rh =>
      match chat_model.model_validate rh with
      | inr h =>
          inr {| messages := raw_messages raw;
                 hyperparams := Some h;
                 model_name := raw_model_name raw |}
      | inl errors => inl errors
      end
  end.

Local Open Scope eff_scope.

(** The [try] block of [chat]. *)
Definition chat_try (env : Env.t) (request : ChatRequest) : Eff.M ChatResponse :=
  service <- chat_model.ChatModelService.__init__ (Env.config env)
               (hyperparams request) (model_name request) ;;
  completion <- chat_model.ChatModelService.chat env service (messages request) ;;
  logger.info "Chat request completed successfully"
    (Some [("num_choices", Py.PInt (Z.of_nat (List.length (openai.choices completion))));
           ("model_used", Py.PStr (openai.model completion))]) ;;
  Eff.ret {| choices := openai.choices completion |}.

(** The [except ChatModelError as e] clause of [chat]. *)
Definition chat_except (request : ChatRequest) (e : Py.exn)
  : option (Eff.M ChatResponse) :=
  if Py.isinstance_ChatModelError e then
    Some (logger.error "Chat request failed"
            (Some [("error_type", Py.PStr (Py.type_name e));
                   ("error_detail", Py.PStr (Py.str e));
                   ("model_name", openai.opt_str (model_name request))]) ;;
          Eff.raise (Py.HTTPException fastapi.HTTP_500_INTERNAL_SERVER_ERROR (Py.str e)))
  else None.

(** The log record [chat] opens with. *)
Definition chat_received (request : ChatRequest) : Eff.M unit :=
  logger.info "Received chat request"
    (Some [("message_count", Py.PInt (Z.of_nat (List.length (messages request))));
           ("model_name", openai.opt_str (model_name request));
           ("has_hyperparams", Py.PBool (match hyperparams request with
                                         | Some _ => true
                                         | None => false
                                         end))]).

Definition chat (env : Env.t) (request : ChatRequest) : Eff.M ChatResponse :=
  chat_received request ;;
  Eff.try_except (chat_try env request) (chat_except request).

(** The [try] block of [chat] with its two calls left open: [construct]
    stands for the call [ChatModelService(hyperparams=..., model_name=...)]
    and [service_chat] for [service.chat(messages=...)], each returning or
    raising as the code called does. *)
Definition chat_try_with
  (construct : option chat_model.ChatModelHyperparams -> option string
               -> Eff.M chat_model.Service)
  (service_chat : chat_model.Service -> list openai.MessageParam
                  -> Eff.M openai.ChatCompletion)
  (request : ChatRequest) : Eff.M ChatResponse :=
  service <- construct (hyperparams request) (model_name request) ;;
  completion <- service_chat service (messages request) ;;
  logger.info "Chat request completed successfully"
    (Some [("num_choices", Py.PInt (Z.of_nat (List.length (openai.choices completion))));
           ("model_used", Py.PStr (openai.model completion))]) ;;
  Eff.ret {| choices := openai.choices completion |}.

(** [chat] around that [try] block: [chat] itself is [chat_with] at the
    service of this program. *)
Definition chat_with
  (construct : option chat_model.ChatModelHyperparams -> option string
               -> Eff.M chat_model.Service)
  (service_chat : chat_model.Service -> list openai.MessageParam
                  -> Eff.M openai.ChatCompletion)
  (request : ChatRequest) : Eff.M ChatResponse :=
  chat_received request ;;
  Eff.try_except (chat_try_with construct service_chat request) (chat_except request).

(** [POST /chat/]: the body is validated before the route function runs; a
    body that fails validation is answered with 422 and the function is
    not called. *)
Definition post (env : Env.t) (raw : RawChatRequest)
  : Eff.World -> fastapi.Served ChatResponse * Eff.World :=
  fun w =>
    match validate raw with
    | inl errors =>
        (fastapi.Responded fastapi.HTTP_422_UNPROCESSABLE_ENTITY
           (fastapi.ValidationErrors errors), w)
    | inr request =>
        let (o, w') := chat env request w in
        (fastapi.respond fastapi.HTTP_200_OK o, w')
    end.

End chat.

(* ================================================================== *)
(** * app/main.py *)

Module main.

Definition health_check : Eff.M (list (string * string)) :=
  Eff.ret [("status", "healthy"); ("service", "MCS-Agent")].

(** [GET /] *)
Definition get (env : Env.t)
  : Eff.World -> fastapi.Served (list (string * string)) * Eff.World :=
  fun w =>
    let (o, w') := health_check w in
    (fastapi.respond fastapi.HTTP_200_OK o, w').

End main.

(* ================================================================== *)
(** * Vocabulary of the statements *)

(** Unfolds the monadic code of the service and of the handler down to
    the upstream's answer. *)
Ltac run_eff :=
  unfold chat.post, chat.chat, chat.chat_received, chat.chat_try, chat.chat_except,
    chat_model.ChatModelService.__init__, chat_model.ChatModelService.chat,
    chat_model.ChatModelService.create,
    Eff.try_except, Eff.bind, Eff.ret, Eff.raise,
    logger.info, logger.debug, logger.error, logger.emit;
  cbn beta iota zeta delta [fst snd Eff.logs Eff.upstream_calls].

(** The service the handler builds for a request. *)
Definition service_of (env : Env.t) (request : chat.ChatRequest) : chat_model.Service :=
  chat_model.ChatModelService.attributes (Env.config env)
    (chat.hyperparams request) (chat.model_name request).

(** The upstream's answer to the call of a request. *)
Definition upstream_answer (env : Env.t) (request : chat.ChatRequest)
  : Eff.outcome openai.ChatCompletion :=
  Env.completions_create env
    (chat_model._client (service_of env request))
    (chat_model.ChatModelService.create_arguments
       (service_of env request) (chat.messages request)).

(** The declared bounds of the hyperparameters, on the fields an input
    gives: temperature, top_p and the two penalties in [0,1], max_tokens in
    [1,8192], n in [1,10], logprobs in [0,10] or absent. *)
Definition within_bounds (raw : chat_model.RawHyperparams) : Prop :=
  (forall t, chat_model.raw_temperature raw = Some t -> (0 <= t)%Q /\ (t <= 1)%Q)
  /\ (forall m, chat_model.raw_max_tokens raw = Some m -> 1 <= m <= 8192)
  /\ (forall p, chat_model.raw_top_p raw = Some p -> (0 <= p)%Q /\ (p <= 1)%Q)
  /\ (forall f, chat_model.raw_frequency_penalty raw = Some f -> (0 <= f)%Q /\ (f <= 1)%Q)
  /\ (forall f, chat_model.raw_presence_penalty raw = Some f -> (0 <= f)%Q /\ (f <= 1)%Q)
  /\ (forall k, chat_model.raw_n raw = Some k -> 1 <= k <= 10)
  /\ (forall k, chat_model.raw_logprobs raw = Some (Some k) -> 0 <= k <= 10).

(** The record the handler logs when it catches. *)
Definition chat_failed_record (request : chat.ChatRequest) (e : Py.exn) : Eff.LogRecord :=
  {| Eff.level := Eff.ERROR;
     Eff.message := "Chat request failed";
     Eff.extra := [("error_type", Py.PStr (Py.type_name e));
                   ("error_detail", Py.PStr (Py.str e));
                   ("model_name", openai.opt_str (chat.model_name request))] |}.

(** The names of the declared hyperparameter fields. *)
Definition declared_fields : list string :=
  ["temperature"; "max_tokens"; "top_p"; "frequency_penalty";
   "presence_penalty"; "n"; "stop"; "stream"; "logprobs"].

(** The text a format string stands for where it holds no field: [{{]
    reads as [{] and [}}] as [}]; a brace on its own is not literal text
    ([None]). *)
Fixpoint undouble (s : string) : option string :=
  match s with
  | EmptyString => Some EmptyString
  | String c rest =>
      if Ascii.eqb c "{" || Ascii.eqb c "}" then
        match rest with
        | String c' rest' =>
            if Ascii.eqb c' c then option_map (String c) (undouble rest') else None
        | EmptyString => None
        end
      else option_map (String c) (undouble rest)
  end.

(** [base_format] without its colour tags. *)
Definition plain_base_format : string :=
  "{time:YYYY-MM-DD HH:mm:ss.SSS} | {level: <8} | {name}:{function}:{line} - {message}".

(** What a field contributes to a line of the plain-text files: its
    escaped key, [=], and its escaped, truncated value. *)
Definition plain_extra_part (json_dumps : Py.pyval -> option string)
  (py_str : Py.pyval -> string) (kv : string * Py.pyval) : string :=
  logger.escape_braces (fst kv) ++ "="
  ++ logger.escape_braces
       (logger._truncate_value json_dumps py_str (snd kv) logger.max_len_default).

(** The format of a record without colour: the plain base, the displayed
    fields if there are any, and the exception field. *)
Definition plain_format (json_dumps : Py.pyval -> option string)
  (py_str : Py.pyval -> string) (extra : Py.dict) : string :=
  plain_base_format
  ++ match logger.display_extra extra with
     | [] => ""
     | kv :: kvs =>
         " | " ++ String.concat " "
                    (map (plain_extra_part json_dumps py_str) (kv :: kvs))
     end
  ++ logger.exception_tail.

(** The record the service logs when the upstream call fails. *)
Definition service_failed_record (self : chat_model.Service) (e : Py.exn) : Eff.LogRecord :=
  {| Eff.level := Eff.ERROR;
     Eff.message := "Chat completion failed";
     Eff.extra := [("model", Py.PStr (chat_model.llm_name self));
                   ("error_type", Py.PStr (Py.type_name e));
                   ("error_message", Py.PStr (Py.str e))] |}.

(** The hyperparameter set an input within bounds is validated to: the
    given fields, the defaults for the others. *)
Definition given_or_default (raw : chat_model.RawHyperparams)
  : chat_model.ChatModelHyperparams :=
  {| chat_model.temperature := chat_model.with_default 0.7%Q (chat_model.raw_temperature raw);
     chat_model.max_tokens := chat_model.with_default 1000 (chat_model.raw_max_tokens raw);
     chat_model.top_p := chat_model.with_default 1.0%Q (chat_model.raw_top_p raw);
     chat_model.frequency_penalty :=
       chat_model.with_default 0.0%Q (chat_model.raw_frequency_penalty raw);
     chat_model.presence_penalty :=
       chat_model.with_default 0.0%Q (chat_model.raw_presence_penalty raw);
     chat_model.n := chat_model.with_default 1 (chat_model.raw_n raw);
     chat_model.stop := chat_model.with_default [] (chat_model.raw_stop raw);
     chat_model.stream := chat_model.with_default false (chat_model.raw_stream raw);
     chat_model.logprobs := chat_model.with_default None (chat_model.raw_logprobs raw) |}.

(** The text of a sequence of segments. *)
Definition join_segments (segments : list string) : string :=
  fold_right String.append EmptyString segments.

(** [seg] is one of the colour tags. *)
Definition is_color_tag (seg : string) : bool :=
  existsb (String.eqb seg) logger.color_tags.

(** The same configuration with another API key. *)
Definition with_api_key (cfg : config.Config) (key : string) : config.Config :=
  {| config.server_host := config.server_host cfg;
     config.server_port := config.server_port cfg;
     config.logging_level := config.logging_level cfg;
     config.llm_base_url := config.llm_base_url cfg;
     config.llm_api_key := key;
     config.llm_name := config.llm_name cfg |}.

(** An upstream that answers by the base URL of the client and the call,
    whatever the client's API key, under a configuration with the key
    [key]. *)
Definition env_with_key (cfg : config.Config)
  (answer : string -> openai.CreateCall -> Eff.outcome openai.ChatCompletion)
  (key : string) : Env.t :=
  {| Env.config := with_api_key cfg key;
     Env.completions_create := fun client call => answer (openai.base_url client) call |}.

(** The declared bounds, on a validated hyperparameter set. *)
Definition in_declared_bounds (h : chat_model.ChatModelHyperparams) : Prop :=
  ((0 <= chat_model.temperature h)%Q /\ (chat_model.temperature h <= 1)%Q)
  /\ 1 <= chat_model.max_tokens h <= 8192
  /\ ((0 <= chat_model.top_p h)%Q /\ (chat_model.top_p h <= 1)%Q)
  /\ ((0 <= chat_model.frequency_penalty h)%Q /\ (chat_model.frequency_penalty h <= 1)%Q)
  /\ ((0 <= chat_model.presence_penalty h)%Q /\ (chat_model.presence_penalty h <= 1)%Q)
  /\ 1 <= chat_model.n h <= 10
  /\ (forall k, chat_model.logprobs h = Some k -> 0 <= k <= 10).

(* ================================================================== *)
(** * Scenarios *)

Module Scenario.

Definition cfg : config.Config :=
  {| config.server_host := "0.0.0.0";
     config.server_port := 8000;
     config.logging_level := None;
     config.llm_base_url := "https://llm.example/v1";
     config.llm_api_key := "secret";
     config.llm_name := "default-model" |}.

(** A fresh process: nothing logged, nothing called. *)
Definition fresh : Eff.World := {| Eff.logs := []; Eff.upstream_calls := [] |}.

Definition hi : list openai.MessageParam :=
  [openai.UserMessage "hi" None].

(** The body [{"messages":[{"role":"user","content":"hi"}]}]. *)
Definition raw_hi : chat.RawChatRequest :=
  {| chat.raw_messages := hi; chat.raw_hyperparams := None; chat.raw_model_name := None |}.

Definition request_hi : chat.ChatRequest :=
  {| chat.messages := hi; chat.hyperparams := None; chat.model_name := None |}.

(** The same request with [model_name] given as the empty string. *)
Definition request_empty_name : chat.ChatRequest :=
  {| chat.messages := hi; chat.hyperparams := None; chat.model_name := Some "" |}.

Definition hello : openai.ChatCompletion :=
  {| openai.id := "cmpl-1";
     openai.choices :=
       [{| openai.finish_reason := "stop";
           openai.index := 0;
           openai.message := {| openai.message_role := "assistant";
                                openai.message_content := Some "hello" |} |}];
     openai.created := 0;
     openai.model := "default-model";
     openai.usage := None;
     openai.model_dump :=
       [("id", Py.PStr "cmpl-1"); ("model", Py.PStr "default-model")] |}.

(** A stub upstream that answers every call with [o]. *)
Definition stub (o : Eff.outcome openai.ChatCompletion) : Env.t :=
  {| Env.config := cfg; Env.completions_create := fun _ _ => o |}.

Definition connection_error : Py.exn :=
  Py.PyError true "APIConnectionError" "Connection error.".

(** An error whose text names its own class. *)
Definition chatty_error : Py.exn :=
  Py.PyError true "UpstreamError" "UpstreamError: connection reset".

(** The cancellation of the serving task: not an [Exception]. *)
Definition cancelled : Py.exn := Py.PyError false "CancelledError" "".

(** What the client's constructor raises when it is given no API key: an
    [Exception] that is not a [ChatModelError]. *)
Definition openai_error : Py.exn :=
  Py.PyError true "OpenAIError" "The api_key client option must be set".

(** A service whose construction fails with [e]. *)
Definition failing_construct (e : Py.exn)
  : option chat_model.ChatModelHyperparams -> option string -> Eff.M chat_model.Service :=
  fun _ _ => Eff.raise e.

(** The world in which the cancellation leaves the handler's [try] block. *)
Definition after_cancel : Eff.World :=
  snd (chat.chat_try (stub (Eff.Raise cancelled)) request_hi
         (snd (chat.chat_received request_hi fresh))).

(** [n] times the character [a]. *)
Definition aaa (n : nat) : string := string_of_list_ascii (repeat "a"%char n).

Definition no_fields : chat_model.RawHyperparams :=
  {| chat_model.raw_temperature := None;
     chat_model.raw_max_tokens := None;
     chat_model.raw_top_p := None;
     chat_model.raw_frequency_penalty := None;
     chat_model.raw_presence_penalty := None;
     chat_model.raw_n := None;
     chat_model.raw_stop := None;
     chat_model.raw_stream := None;
     chat_model.raw_logprobs := None |}.

(** [{"temperature": 1.5, "max_tokens": 0}] *)
Definition too_hot : chat_model.RawHyperparams :=
  {| chat_model.raw_temperature := Some 1.5%Q;
     chat_model.raw_max_tokens := Some 0;
     chat_model.raw_top_p := None;
     chat_model.raw_frequency_penalty := None;
     chat_model.raw_presence_penalty := None;
     chat_model.raw_n := None;
     chat_model.raw_stop := None;
     chat_model.raw_stream := None;
     chat_model.raw_logprobs := None |}.

(** [{"temperature": 0.25, "max_tokens": 5, "presence_penalty": 0.5,
    "n": 3, "stop": ["END"], "logprobs": 2}] *)
Definition cool : chat_model.RawHyperparams :=
  {| chat_model.raw_temperature := Some 0.25%Q;
     chat_model.raw_max_tokens := Some 5;
     chat_model.raw_top_p := None;
     chat_model.raw_frequency_penalty := None;
     chat_model.raw_presence_penalty := Some 0.5%Q;
     chat_model.raw_n := Some 3;
     chat_model.raw_stop := Some ["END"];
     chat_model.raw_stream := None;
     chat_model.raw_logprobs := Some (Some 2) |}.

(** The hyperparameter set validation makes of it. *)
Definition cool_validated : chat_model.ChatModelHyperparams :=
  {| chat_model.temperature := 0.25%Q;
     chat_model.max_tokens := 5;
     chat_model.top_p := 1.0%Q;
     chat_model.frequency_penalty := 0.0%Q;
     chat_model.presence_penalty := 0.5%Q;
     chat_model.n := 3;
     chat_model.stop := ["END"];
     chat_model.stream := false;
     chat_model.logprobs := Some 2 |}.

End Scenario.

(* ================================================================== *)
(** * Properties *)

(** ** Strings *)

Lemma length_append (s t : string) :
  String.length (s ++ t) = (String.length s + String.length t)%nat.
Proof.
  induction s as [|c s IH]; simpl; [reflexivity | now rewrite IH].
Qed.

Lemma length_substring_0 (k : nat) (s : string) :
  String.length (substring 0 k s) = Nat.min k (String.length s).
Proof.
  revert k; induction s as [|c s IH]; intros [|k]; simpl; try reflexivity.
  now rewrite IH.
Qed.

Lemma prefix_append (s t : string) : prefix s (s ++ t) = true.
Proof.
  induction s as [|c s IH]; simpl.
  - now destruct t.
  - destruct (ascii_dec c c) as [_|ne]; [exact IH | now elim ne].
Qed.

Lemma prefix_refl (s : string) : prefix s s = true.
Proof.
  induction s as [|c s IH]; cbn; [reflexivity|].
  destruct (ascii_dec c c) as [_|ne]; [exact IH | now elim ne].
Qed.

Lemma str_in_append_left (needle l r : string) :
  Py.str_in needle r = true -> Py.str_in needle (l ++ r) = true.
Proof.
  intros H; induction l as [|c l IH]; [exact H|].
  change (String c l ++ r) with (String c (l ++ r)).
  cbn [Py.str_in]; rewrite IH.
  now destruct (prefix needle (String c (l ++ r))).
Qed.

Lemma str_in_prefix (needle hay : string) :
  prefix needle hay = true -> Py.str_in needle hay = true.
Proof.
  destruct hay; cbn [Py.str_in]; intros ->; reflexivity.
Qed.

Lemma str_in_here (needle r : string) : Py.str_in needle (needle ++ r) = true.
Proof. apply str_in_prefix, prefix_append. Qed.

(** [needle in (l + needle + r)] *)
Lemma str_in_middle (needle l r : string) :
  Py.str_in needle (l ++ needle ++ r) = true.
Proof. apply str_in_append_left, str_in_here. Qed.

Lemma prefix_split (needle hay : string) :
  prefix needle hay = true -> exists r, hay = needle ++ r.
Proof.
  revert hay; induction needle as [|a needle IH]; intros hay H.
  - now exists hay.
  - destruct hay as [|b hay]; [discriminate|]. cbn in H.
    destruct (ascii_dec a b) as [->|]; [|discriminate].
    destruct (IH hay H) as [r ->]. now exists r.
Qed.

(** [str_in] is the substring test. *)
Lemma str_in_spec (needle hay : string) :
  Py.str_in needle hay = true <-> exists l r, hay = l ++ needle ++ r.
Proof.
  split.
  - induction hay as [|c hay IH]; cbn [Py.str_in]; intros H.
    + destruct (prefix needle "") eqn:P; [|discriminate].
      destruct (prefix_split _ _ P) as [r E]. now exists "", r.
    + destruct (prefix needle (String c hay)) eqn:P.
      * destruct (prefix_split _ _ P) as [r E]. now exists "", r.
      * destruct (IH H) as (l & r & ->). now exists (String c l), r.
  - intros (l & r & ->). apply str_in_middle.
Qed.

(** ** The truncation helper *)

Section Truncation.

Variable json_dumps : Py.pyval -> option string.
Variable py_str : Py.pyval -> string.

Local Abbreviation render := (logger.render json_dumps py_str).
Local Abbreviation _truncate_value := (logger._truncate_value json_dumps py_str).

Lemma truncate_value_unfold (v : Py.pyval) :
  _truncate_value v logger.max_len_default =
  if (String.length (render v) <=? 100)%nat then render v
  else substring 0 97 (render v) ++ "...".
Proof.
  unfold logger._truncate_value, logger.max_len_default, Py.len.
  cbv zeta.
  destruct (Nat.leb_spec (String.length (render v)) 100) as [Hle|Hgt].
  - replace (Z.of_nat (String.length (render v)) >? 100) with false; [reflexivity|].
    symmetry; rewrite Z.gtb_ltb; apply Z.ltb_ge; lia.
  - replace (Z.of_nat (String.length (render v)) >? 100) with true.
    + reflexivity.
    + symmetry; rewrite Z.gtb_ltb; apply Z.ltb_lt; lia.
Qed.

Lemma truncate_value_length (v : Py.pyval) :
  (String.length (_truncate_value v logger.max_len_default) <= 100)%nat.
Proof.
  rewrite truncate_value_unfold.
  destruct (Nat.leb_spec (String.length (render v)) 100) as [Hle|Hgt]; [exact Hle|].
  rewrite length_append, length_substring_0.
  change (String.length "...") with 3%nat; lia.
Qed.

(** C8. Every value formatted by [_truncate_value] (with the default
    [max_len] of 100) is at most 100 characters long: a rendering of at
    most 100 characters is returned unchanged, a longer one is cut to its
    first 97 characters followed by [...]. *)
Theorem truncate_value_at_most_100 (v : Py.pyval) :
  (String.length (_truncate_value v logger.max_len_default) <= 100)%nat
  /\ _truncate_value v logger.max_len_default =
     (if (String.length (render v) <=? 100)%nat then render v
      else substring 0 97 (render v) ++ "...").
Proof.
  split; [apply truncate_value_length | apply truncate_value_unfold].
Qed.

(** C10. [_truncate_value] is idempotent: formatting its own output (a
    string) gives that output back. *)
Theorem truncate_value_idempotent (v : Py.pyval) :
  _truncate_value (Py.PStr (_truncate_value v logger.max_len_default))
    logger.max_len_default
  = _truncate_value v logger.max_len_default.
Proof.
  set (out := _truncate_value v logger.max_len_default).
  pose proof (truncate_value_length v) as Hlen; fold out in Hlen.
  rewrite truncate_value_unfold.
  cbn [logger.render].
  destruct (Nat.leb_spec (String.length out) 100) as [_|Hgt]; [reflexivity | lia].
Qed.

End Truncation.

Example truncate_100_unchanged :
  logger._truncate_value (fun _ => None) (fun _ => "") (Py.PStr (Scenario.aaa 100)) 100
  = Scenario.aaa 100.
Proof. vm_compute. reflexivity. Qed.

Example truncate_101_cut :
  logger._truncate_value (fun _ => None) (fun _ => "") (Py.PStr (Scenario.aaa 101)) 100
  = Scenario.aaa 97 ++ "...".
Proof. vm_compute. reflexivity. Qed.

(** ** Running the service and the handler *)

Lemma init_returns (cfg : config.Config) hp mn (w : Eff.World) :
  fst (chat_model.ChatModelService.__init__ cfg hp mn w)
  = Eff.Return (chat_model.ChatModelService.attributes cfg hp mn)
  /\ Eff.upstream_calls (snd (chat_model.ChatModelService.__init__ cfg hp mn w))
     = Eff.upstream_calls w
  /\ Eff.at_level Eff.ERROR (Eff.logs (snd (chat_model.ChatModelService.__init__ cfg hp mn w)))
     = Eff.at_level Eff.ERROR (Eff.logs w).
Proof.
  run_eff. repeat split.
  unfold Eff.at_level; rewrite filter_app; cbn; apply app_nil_r.
Qed.

(** [ChatModelService.chat] makes exactly one upstream call, whatever the
    answer. *)
Lemma service_chat_calls (env : Env.t) (self : chat_model.Service) msgs (w : Eff.World) :
  Eff.upstream_calls (snd (chat_model.ChatModelService.chat env self msgs w))
  = (Eff.upstream_calls w
     ++ [chat_model.ChatModelService.create_arguments self msgs])%list.
Proof.
  run_eff.
  destruct (Env.completions_create env _ _) as [c|e]; cbn; [reflexivity|].
  destruct (Py.isinstance_Exception e); reflexivity.
Qed.

(** The outcome of [ChatModelService.chat], by the upstream's answer. *)
Lemma service_chat_outcome (env : Env.t) (self : chat_model.Service) msgs (w : Eff.World) :
  fst (chat_model.ChatModelService.chat env self msgs w)
  = match Env.completions_create env (chat_model._client self)
            (chat_model.ChatModelService.create_arguments self msgs) with
    | Eff.Return completion => Eff.Return completion
    | Eff.Raise e =>
        if Py.isinstance_Exception e
        then Eff.Raise (Py.ChatModelError ("Error chatting with model: " ++ Py.str e))
        else Eff.Raise e
    end.
Proof.
  run_eff.
  destruct (Env.completions_create env _ _) as [c|e]; cbn; [reflexivity|].
  destruct (Py.isinstance_Exception e); reflexivity.
Qed.

(** The handler makes exactly the call of its service. *)
Lemma handler_calls (env : Env.t) (request : chat.ChatRequest) (w : Eff.World) :
  Eff.upstream_calls (snd (chat.chat env request w))
  = (Eff.upstream_calls w
     ++ [chat_model.ChatModelService.create_arguments
           (service_of env request) (chat.messages request)])%list.
Proof.
  run_eff. fold (service_of env request).
  destruct (Env.completions_create env _ _) as [c|e]; cbn; [reflexivity|].
  destruct e as [m|code d|[|] name text]; reflexivity.
Qed.

(** The outcome of the handler, by the upstream's answer. *)
Lemma handler_outcome (env : Env.t) (request : chat.ChatRequest) (w : Eff.World) :
  fst (chat.chat env request w)
  = match upstream_answer env request with
    | Eff.Return completion =>
        Eff.Return {| chat.choices := openai.choices completion |}
    | Eff.Raise e =>
        if Py.isinstance_Exception e
        then Eff.Raise (Py.HTTPException 500
                          ("Error chatting with model: " ++ Py.str e))
        else Eff.Raise e
    end.
Proof.
  unfold upstream_answer. run_eff. fold (service_of env request).
  destruct (Env.completions_create env _ _) as [c|e]; cbn; [reflexivity|].
  destruct e as [m|code d|[|] name text]; reflexivity.
Qed.

(** ** Model name resolution *)

(** C2 (amended). A request whose [model_name] is a non-empty string makes
    the upstream call with that name; a request whose [model_name] is
    omitted or is the empty string makes it with the configured default. *)
Theorem model_name_override (env : Env.t) (request : chat.ChatRequest) (w : Eff.World) :
  map openai.call_model (Eff.upstream_calls (snd (chat.chat env request w)))
  = (map openai.call_model (Eff.upstream_calls w)
     ++ [match chat.model_name request with
         | Some name =>
             if String.eqb name "" then config.llm_name (Env.config env) else name
         | None => config.llm_name (Env.config env)
         end])%list.
Proof.
  rewrite handler_calls, map_app; f_equal; cbn.
  destruct (chat.model_name request) as [name|]; [|reflexivity].
  unfold Py.truthy; now destruct (String.eqb name "").
Qed.

(** C2, as stated, fails: with [model_name] set to the empty string the
    call is made with the configured default, not with the given name. *)
Lemma model_name_set_but_default_used :
  chat.model_name Scenario.request_empty_name = Some ""
  /\ map openai.call_model
       (Eff.upstream_calls
          (snd (chat.chat (Scenario.stub (Eff.Return Scenario.hello))
                  Scenario.request_empty_name Scenario.fresh)))
     = ["default-model"]
  /\ String.eqb "default-model" "" = false.
Proof. repeat split. Qed.

(** C9. Constructed with the empty string as model name, the service
    takes the configured default: the override is tested for truthiness. *)
Theorem empty_model_name_falls_back (cfg : config.Config)
  (hp : option chat_model.ChatModelHyperparams) (w : Eff.World) :
  exists self,
    fst (chat_model.ChatModelService.__init__ cfg hp (Some "") w) = Eff.Return self
    /\ chat_model.llm_name self = config.llm_name cfg
    /\ forall msgs,
         openai.call_model (chat_model.ChatModelService.create_arguments self msgs)
         = config.llm_name cfg.
Proof.
  exists (chat_model.ChatModelService.attributes cfg hp (Some "")).
  split; [apply init_returns|]. split; reflexivity.
Qed.

(** ** The options of the upstream call *)

Lemma model_dump_keys (h : chat_model.ChatModelHyperparams) :
  Py.keys (chat_model.model_dump h) = declared_fields.
Proof. reflexivity. Qed.

(** C3. [ChatModelService.chat] makes one upstream call, with the model
    name and the messages; built without hyperparameters it passes no
    option at all, built with a hyperparameter set it passes exactly the
    nine declared fields as named options. *)
Theorem call_options_follow_hyperparams (env : Env.t) (cfg : config.Config)
  (hp : option chat_model.ChatModelHyperparams) (mn : option string)
  (msgs : list openai.MessageParam) (w : Eff.World) :
  let self := chat_model.ChatModelService.attributes cfg hp mn in
  exists call,
    Eff.upstream_calls (snd (chat_model.ChatModelService.chat env self msgs w))
    = (Eff.upstream_calls w ++ [call])%list
    /\ openai.call_model call = chat_model.llm_name self
    /\ openai.call_messages call = msgs
    /\ match hp with
       | None => openai.call_options call = []
       | Some h =>
           openai.call_options call = chat_model.model_dump h
           /\ Py.keys (openai.call_options call) = declared_fields
           /\ NoDup (Py.keys (openai.call_options call))
       end.
Proof.
  intros self.
  exists (chat_model.ChatModelService.create_arguments self msgs).
  split; [apply service_chat_calls|].
  repeat split; destruct hp as [h|]; cbn; try reflexivity.
  unfold declared_fields.
  repeat (constructor; [cbn; intuition discriminate|]). constructor.
Qed.

(** ** Upstream failures *)

Lemma post_validated (env : Env.t) (raw : chat.RawChatRequest)
  (request : chat.ChatRequest) (w : Eff.World) :
  chat.validate raw = inr request ->
  fst (chat.post env raw w)
  = fastapi.respond fastapi.HTTP_200_OK (fst (chat.chat env request w)).
Proof.
  intros V; unfold chat.post; rewrite V.
  now destruct (chat.chat env request w).
Qed.

(** C1 (amended). When the upstream call raises an exception [e] (an
    instance of [Exception]), the service raises a [ChatModelError] whose
    message is exactly ["Error chatting with model: "] followed by [str(e)],
    and the handler answers 500 with exactly that message as detail; the
    detail contains the text of [e]. The detail is made of [str(e)] alone:
    the class name of [e] is not added to it. *)
Theorem upstream_exception_answered_500 (env : Env.t) (raw : chat.RawChatRequest)
  (request : chat.ChatRequest) (w : Eff.World) (e : Py.exn) :
  chat.validate raw = inr request ->
  upstream_answer env request = Eff.Raise e ->
  Py.isinstance_Exception e = true ->
  let detail := "Error chatting with model: " ++ Py.str e in
  fst (chat_model.ChatModelService.chat env (service_of env request)
         (chat.messages request) w)
  = Eff.Raise (Py.ChatModelError detail)
  /\ fst (chat.post env raw w) = fastapi.Responded 500 (fastapi.Detail detail)
  /\ Py.str_in (Py.str e) detail = true.
Proof.
  intros V U E detail. repeat split.
  - rewrite service_chat_outcome. unfold upstream_answer in U. now rewrite U, E.
  - rewrite (post_validated env raw request w V), handler_outcome, U, E.
    reflexivity.
  - apply str_in_append_left, str_in_prefix, prefix_refl.
Qed.

Lemma upstream_exception_answered_500_witness :
  fst (chat_model.ChatModelService.chat
         (Scenario.stub (Eff.Raise Scenario.connection_error))
         (service_of (Scenario.stub (Eff.Raise Scenario.connection_error))
            Scenario.request_hi)
         Scenario.hi Scenario.fresh)
  = Eff.Raise (Py.ChatModelError "Error chatting with model: Connection error.")
  /\ fst (chat.post (Scenario.stub (Eff.Raise Scenario.connection_error))
            Scenario.raw_hi Scenario.fresh)
     = fastapi.Responded 500
         (fastapi.Detail "Error chatting with model: Connection error.")
  /\ Py.str_in "Connection error." "Error chatting with model: Connection error."
     = true.
Proof.
  exact (upstream_exception_answered_500
           (Scenario.stub (Eff.Raise Scenario.connection_error))
           Scenario.raw_hi Scenario.request_hi Scenario.fresh
           Scenario.connection_error eq_refl eq_refl eq_refl).
Defined.

(** C1, as stated, fails: the text of an exception is copied to the
    response whatever it says, so an exception whose text names its class
    puts the class name in the detail. *)
Lemma class_name_in_the_detail :
  upstream_answer (Scenario.stub (Eff.Raise Scenario.chatty_error)) Scenario.request_hi
  = Eff.Raise Scenario.chatty_error
  /\ Py.type_name Scenario.chatty_error = "UpstreamError"
  /\ fst (chat.post (Scenario.stub (Eff.Raise Scenario.chatty_error))
            Scenario.raw_hi Scenario.fresh)
     = fastapi.Responded 500
         (fastapi.Detail "Error chatting with model: UpstreamError: connection reset")
  /\ Py.str_in (Py.type_name Scenario.chatty_error)
       "Error chatting with model: UpstreamError: connection reset" = true.
Proof. repeat split. Qed.

(** ** Successful calls *)

(** C5. When the upstream call returns a completion, the handler answers
    200 with the completion's choice list itself: as many entries, in the
    same order, each unchanged. *)
Theorem choices_passed_through (env : Env.t) (raw : chat.RawChatRequest)
  (request : chat.ChatRequest) (w : Eff.World) (completion : openai.ChatCompletion) :
  chat.validate raw = inr request ->
  upstream_answer env request = Eff.Return completion ->
  exists response,
    fst (chat.post env raw w) = fastapi.Responded 200 (fastapi.Json response)
    /\ chat.choices response = openai.choices completion
    /\ List.length (chat.choices response) = List.length (openai.choices completion)
    /\ forall i, nth_error (chat.choices response) i
                 = nth_error (openai.choices completion) i.
Proof.
  intros V U. exists {| chat.choices := openai.choices completion |}.
  split; [|repeat split].
  rewrite (post_validated env raw request w V), handler_outcome, U. reflexivity.
Qed.

Lemma choices_passed_through_witness :
  exists response,
    fst (chat.post (Scenario.stub (Eff.Return Scenario.hello))
           Scenario.raw_hi Scenario.fresh)
    = fastapi.Responded 200 (fastapi.Json response)
    /\ chat.choices response = openai.choices Scenario.hello
    /\ List.length (chat.choices response) = List.length (openai.choices Scenario.hello)
    /\ forall i, nth_error (chat.choices response) i
                 = nth_error (openai.choices Scenario.hello) i.
Proof.
  exact (choices_passed_through (Scenario.stub (Eff.Return Scenario.hello))
           Scenario.raw_hi Scenario.request_hi Scenario.fresh Scenario.hello
           eq_refl eq_refl).
Defined.

(** ** The health route *)

(** C7. [GET /] answers 200 with the fixed payload in every world and
    against every upstream, and it changes nothing: no call, no log. *)
Theorem health_check_fixed (env : Env.t) (w : Eff.World) :
  main.get env w
  = (fastapi.Responded 200
       (fastapi.Json [("status", "healthy"); ("service", "MCS-Agent")]), w).
Proof.
  unfold main.get, main.health_check, Eff.ret, fastapi.respond. reflexivity.
Qed.

(** ** What the handler catches *)

(** The [except] clause of the handler matches [ChatModelError] and
    nothing else. *)
Lemma chat_except_matches (request : chat.ChatRequest) (e : Py.exn) :
  chat.chat_except request e = None <-> Py.isinstance_ChatModelError e = false.
Proof.
  unfold chat.chat_except.
  destruct (Py.isinstance_ChatModelError e); split; intros H; congruence.
Qed.

Lemma at_level_snoc (l : Eff.Level) (rs : list Eff.LogRecord) (r : Eff.LogRecord) :
  Eff.at_level l (rs ++ [r])
  = (Eff.at_level l rs ++ if Eff.level_eqb (Eff.level r) l then [r] else [])%list.
Proof.
  unfold Eff.at_level; rewrite filter_app; cbn.
  now destruct (Eff.level_eqb (Eff.level r) l).
Qed.

(** C6. The handler catches [ChatModelError] and nothing else. Whatever
    the service does inside the [try] block: a [ChatModelError] raised there
    is logged and answered with [HTTPException] 500; an exception of any
    other class raised there, an instance of [Exception] or not, leaves the
    handler as it was raised and in the world it was raised in (the handler
    logs nothing), and the framework has no response for it unless it is an
    [HTTPException]. With the service of this program, no record is logged
    at error level on that path at all. *)
Theorem handler_catches_only_ChatModelError (env : Env.t)
  (construct : option chat_model.ChatModelHyperparams -> option string
               -> Eff.M chat_model.Service)
  (service_chat : chat_model.Service -> list openai.MessageParam
                  -> Eff.M openai.ChatCompletion)
  (request : chat.ChatRequest) (w w1 : Eff.World) (e : Py.exn) :
  chat.chat_try_with construct service_chat request
    (snd (chat.chat_received request w)) = (Eff.Raise e, w1) ->
  chat.chat env request
  = chat.chat_with (chat_model.ChatModelService.__init__ (Env.config env))
      (chat_model.ChatModelService.chat env) request
  /\ match e with
     | Py.ChatModelError message =>
         chat.chat_with construct service_chat request w
         = (Eff.Raise (Py.HTTPException 500 message),
            {| Eff.logs := (Eff.logs w1 ++ [chat_failed_record request e])%list;
               Eff.upstream_calls := Eff.upstream_calls w1 |})
     | Py.HTTPException _ _ =>
         chat.chat_with construct service_chat request w = (Eff.Raise e, w1)
     | Py.PyError _ _ _ =>
         chat.chat_with construct service_chat request w = (Eff.Raise e, w1)
         /\ fastapi.respond (A := chat.ChatResponse) fastapi.HTTP_200_OK (Eff.Raise e)
            = fastapi.Propagated e
     end
  /\ (forall w' w1' e',
        chat.chat_try env request (snd (chat.chat_received request w'))
        = (Eff.Raise e', w1') ->
        Py.isinstance_ChatModelError e' = false ->
        chat.chat env request w' = (Eff.Raise e', w1')
        /\ Eff.at_level Eff.ERROR (Eff.logs w1') = Eff.at_level Eff.ERROR (Eff.logs w')).
Proof.
  intros H. split; [reflexivity|]. split.
  - assert (Hrun : chat.chat_with construct service_chat request w
                   = match chat.chat_except request e with
                     | Some handler => handler w1
                     | None => (Eff.Raise e, w1)
                     end).
    { unfold chat.chat_with, Eff.bind, Eff.try_except.
      destruct (chat.chat_received request w) as [[[]|e0] w0] eqn:R; cbn [snd] in H.
      - now rewrite H.
      - unfold chat.chat_received, logger.info, logger.emit in R; discriminate. }
    rewrite Hrun. destruct e as [message|code detail|b name text]; cbn.
    + reflexivity.
    + reflexivity.
    + split; reflexivity.
  - clear. intros w' w1' e' H NC. split.
    + unfold chat.chat, Eff.bind, Eff.try_except.
      destruct (chat.chat_received request w') as [[[]|e0] w0] eqn:R; cbn [snd] in H.
      * rewrite H. now rewrite (proj2 (chat_except_matches request e') NC).
      * unfold chat.chat_received, logger.info, logger.emit in R; discriminate.
    + revert H. run_eff.
      destruct (Env.completions_create env _ _) as [c|e0]; cbn; [discriminate|].
      destruct (Py.isinstance_Exception e0); cbn; intros H; inversion H; subst.
      * discriminate.
      * cbn [Eff.logs]. rewrite !at_level_snoc.
        cbn [Eff.level Eff.level_eqb]. now rewrite !app_nil_r.
Qed.

Lemma handler_catches_only_ChatModelError_witness :
  chat.chat (Scenario.stub (Eff.Return Scenario.hello)) Scenario.request_hi
  = chat.chat_with
      (chat_model.ChatModelService.__init__
         (Env.config (Scenario.stub (Eff.Return Scenario.hello))))
      (chat_model.ChatModelService.chat (Scenario.stub (Eff.Return Scenario.hello)))
      Scenario.request_hi
  /\ (chat.chat_with (Scenario.failing_construct Scenario.openai_error)
        (chat_model.ChatModelService.chat (Scenario.stub (Eff.Return Scenario.hello)))
        Scenario.request_hi Scenario.fresh
      = (Eff.Raise Scenario.openai_error,
         snd (chat.chat_received Scenario.request_hi Scenario.fresh))
      /\ fastapi.respond (A := chat.ChatResponse) fastapi.HTTP_200_OK
           (Eff.Raise Scenario.openai_error)
         = fastapi.Propagated Scenario.openai_error)
  /\ (forall w' w1' e',
        chat.chat_try (Scenario.stub (Eff.Return Scenario.hello)) Scenario.request_hi
          (snd (chat.chat_received Scenario.request_hi w'))
        = (Eff.Raise e', w1') ->
        Py.isinstance_ChatModelError e' = false ->
        chat.chat (Scenario.stub (Eff.Return Scenario.hello)) Scenario.request_hi w'
        = (Eff.Raise e', w1')
        /\ Eff.at_level Eff.ERROR (Eff.logs w1') = Eff.at_level Eff.ERROR (Eff.logs w')).
Proof.
  exact (handler_catches_only_ChatModelError
           (Scenario.stub (Eff.Return Scenario.hello))
           (Scenario.failing_construct Scenario.openai_error)
           (chat_model.ChatModelService.chat (Scenario.stub (Eff.Return Scenario.hello)))
           Scenario.request_hi Scenario.fresh
           (snd (chat.chat_received Scenario.request_hi Scenario.fresh))
           Scenario.openai_error eq_refl).
Defined.

(** The cancellation of the serving task while the upstream call is
    awaited goes through the service and the handler untouched. *)
Example cancellation_propagates :
  chat.chat (Scenario.stub (Eff.Raise Scenario.cancelled)) Scenario.request_hi
    Scenario.fresh
  = (Eff.Raise Scenario.cancelled, Scenario.after_cancel)
  /\ Eff.at_level Eff.ERROR (Eff.logs Scenario.after_cancel) = [].
Proof. split; reflexivity. Qed.

(** An upstream failure reaches the handler as a [ChatModelError] and is
    caught there. *)
Example connection_error_is_caught :
  fst (chat.chat (Scenario.stub (Eff.Raise Scenario.connection_error))
         Scenario.request_hi Scenario.fresh)
  = Eff.Raise (Py.HTTPException 500 "Error chatting with model: Connection error.").
Proof. reflexivity. Qed.

(** ** Validation of the hyperparameters *)

Lemma app_nil_iff {A} (l l' : list A) : (l ++ l')%list = [] <-> l = [] /\ l' = [].
Proof.
  split; [apply app_eq_nil | intros [-> ->]; reflexivity].
Qed.

Lemma check_bounds_Z_nil (name : string) (lo hi x : Z) :
  chat_model.check_bounds Z.leb name lo hi x = [] <-> lo <= x <= hi.
Proof.
  unfold chat_model.check_bounds.
  destruct (Z.leb_spec lo x), (Z.leb_spec x hi); cbn; split; intros G;
    try discriminate; try reflexivity; lia.
Qed.

Lemma check_bounds_Q_nil (name : string) (lo hi x : Q) :
  chat_model.check_bounds Qle_bool name lo hi x = [] <-> (lo <= x)%Q /\ (x <= hi)%Q.
Proof.
  unfold chat_model.check_bounds.
  destruct (Qle_bool lo x) eqn:L, (Qle_bool x hi) eqn:H; cbn; split;
    try discriminate; try reflexivity;
    try (intros _; split; now apply Qle_bool_iff).
  - intros [_ G]; apply Qle_bool_iff in G; congruence.
  - intros [G _]; apply Qle_bool_iff in G; congruence.
  - intros [G _]; apply Qle_bool_iff in G; congruence.
Qed.

Lemma check_field_Z_nil (name : string) (lo hi : Z) (given : option Z) :
  chat_model.check_field Z.leb name lo hi given = []
  <-> forall x, given = Some x -> lo <= x <= hi.
Proof.
  destruct given as [x|]; cbn.
  - rewrite check_bounds_Z_nil; split; [intros H y [= <-]; exact H | auto].
  - split; [discriminate | reflexivity].
Qed.

Lemma check_field_Q_nil (name : string) (lo hi : Q) (given : option Q) :
  chat_model.check_field Qle_bool name lo hi given = []
  <-> forall x, given = Some x -> (lo <= x)%Q /\ (x <= hi)%Q.
Proof.
  destruct given as [x|]; cbn.
  - rewrite check_bounds_Q_nil; split; [intros H y [= <-]; exact H | auto].
  - split; [discriminate | reflexivity].
Qed.

(** The validator finds no error exactly on the inputs within the declared
    bounds. *)
Lemma validation_errors_nil (raw : chat_model.RawHyperparams) :
  chat_model.validation_errors raw = [] <-> within_bounds raw.
Proof.
  unfold chat_model.validation_errors, within_bounds.
  rewrite !app_nil_iff, !check_field_Q_nil, !check_field_Z_nil.
  assert (L : match chat_model.raw_logprobs raw with
              | Some (Some k) => chat_model.check_bounds Z.leb "logprobs" 0 10 k
              | _ => []
              end = []
              <-> forall k, chat_model.raw_logprobs raw = Some (Some k) -> 0 <= k <= 10).
  { destruct (chat_model.raw_logprobs raw) as [[k|]|].
    - rewrite check_bounds_Z_nil; split; [intros H y [= <-]; exact H | auto].
    - split; [discriminate | reflexivity].
    - split; [discriminate | reflexivity]. }
  rewrite <- L. clear L.
  destruct (chat_model.raw_logprobs raw) as [[k|]|]; tauto.
Qed.

(** C4. The construction of a hyperparameter set succeeds on every input
    within the declared bounds and fails validation on every other input;
    a chat request carrying such an input is answered 422 in an unchanged
    world: no service is built and no upstream call is made. *)
Theorem hyperparams_validated_against_bounds (raw : chat_model.RawHyperparams) :
  (within_bounds raw -> exists h, chat_model.model_validate raw = inr h)
  /\ (~ within_bounds raw ->
      exists errors,
        errors <> []
        /\ chat_model.model_validate raw = inl errors
        /\ forall env msgs mn w,
             chat.post env {| chat.raw_messages := msgs;
                              chat.raw_hyperparams := Some raw;
                              chat.raw_model_name := mn |} w
             = (fastapi.Responded 422 (fastapi.ValidationErrors errors), w)).
Proof.
  split; intros H.
  - apply validation_errors_nil in H.
    unfold chat_model.model_validate; rewrite H; eauto.
  - destruct (chat_model.validation_errors raw) as [|e es] eqn:E.
    + elim H. now apply validation_errors_nil.
    + assert (V : chat_model.model_validate raw = inl (e :: es))
        by (unfold chat_model.model_validate; now rewrite E).
      exists (e :: es). split; [discriminate|]. split; [exact V|].
      intros env msgs mn w. unfold chat.post, chat.validate; cbn.
      now rewrite V.
Qed.

Lemma hyperparams_validated_against_bounds_witness :
  (exists h, chat_model.model_validate Scenario.no_fields = inr h)
  /\ (exists errors,
        errors <> []
        /\ chat_model.model_validate Scenario.too_hot = inl errors
        /\ forall env msgs mn w,
             chat.post env {| chat.raw_messages := msgs;
                              chat.raw_hyperparams := Some Scenario.too_hot;
                              chat.raw_model_name := mn |} w
             = (fastapi.Responded 422 (fastapi.ValidationErrors errors), w)).
Proof.
  split.
  - apply (proj1 (hyperparams_validated_against_bounds Scenario.no_fields)).
    unfold within_bounds; simpl; repeat split; intros; discriminate.
  - apply (proj2 (hyperparams_validated_against_bounds Scenario.too_hot)).
    intros [H _]. destruct (H _ eq_refl) as [_ G].
    unfold Qle in G; simpl in G; lia.
Defined.

Example too_hot_errors :
  chat_model.model_validate Scenario.too_hot
  = inl [{| chat_model.loc := "temperature"; chat_model.type := "less_than_equal" |};
         {| chat_model.loc := "max_tokens"; chat_model.type := "greater_than_equal" |}].
Proof. reflexivity. Qed.

Example defaults_when_nothing_given :
  option_map chat_model.model_dump
    (match chat_model.model_validate Scenario.no_fields with
     | inr h => Some h
     | inl _ => None
     end)
  = Some [("temperature", Py.PFloat 0.7); ("max_tokens", Py.PInt 1000);
          ("top_p", Py.PFloat 1.0); ("frequency_penalty", Py.PFloat 0.0);
          ("presence_penalty", Py.PFloat 0.0); ("n", Py.PInt 1);
          ("stop", Py.PList []); ("stream", Py.PBool false);
          ("logprobs", Py.PNone)].
Proof. reflexivity. Qed.

(* ================================================================== *)
(** * Further properties of the code *)

(** ** [_truncate_value] with any [max_len] *)

Lemma truncate_value_cut (json_dumps : Py.pyval -> option string)
  (py_str : Py.pyval -> string) (v : Py.pyval) (max_len : Z) :
  Py.len (logger.render json_dumps py_str v) > max_len ->
  logger._truncate_value json_dumps py_str v max_len
  = Py.slice_to (logger.render json_dumps py_str v) (max_len - 3) ++ "...".
Proof.
  intros H. unfold logger._truncate_value; cbv zeta.
  now replace (Py.len (logger.render json_dumps py_str v) >? max_len) with true
    by (symmetry; apply Z.gtb_lt; lia).
Qed.

Lemma truncate_value_kept (json_dumps : Py.pyval -> option string)
  (py_str : Py.pyval -> string) (v : Py.pyval) (max_len : Z) :
  Py.len (logger.render json_dumps py_str v) <= max_len ->
  logger._truncate_value json_dumps py_str v max_len
  = logger.render json_dumps py_str v.
Proof.
  intros H. unfold logger._truncate_value; cbv zeta.
  replace (Py.len (logger.render json_dumps py_str v) >? max_len) with false;
    [reflexivity|].
  symmetry. rewrite Z.gtb_ltb. apply Z.ltb_ge. lia.
Qed.

Lemma len_slice_to (s : string) (k : Z) :
  Py.len (Py.slice_to s k)
  = if 0 <=? k then Z.min k (Py.len s) else Z.max 0 (Py.len s + k).
Proof.
  unfold Py.slice_to, Py.len.
  destruct (Z.leb_spec 0 k); rewrite length_substring_0; lia.
Qed.

(** X1. For every [max_len] of at least 3, the value [_truncate_value]
    returns is at most [max_len] characters long. *)
Theorem truncate_value_within_max_len (json_dumps : Py.pyval -> option string)
  (py_str : Py.pyval -> string) (v : Py.pyval) (max_len : Z) :
  3 <= max_len ->
  Py.len (logger._truncate_value json_dumps py_str v max_len) <= max_len.
Proof.
  intros H.
  destruct (Z_le_gt_dec (Py.len (logger.render json_dumps py_str v)) max_len) as [L|G].
  - now rewrite truncate_value_kept.
  - rewrite truncate_value_cut by exact G.
    unfold Py.len at 1. rewrite length_append. fold (Py.len (Py.slice_to
      (logger.render json_dumps py_str v) (max_len - 3))) .
    rewrite Nat2Z.inj_add. fold (Py.len (Py.slice_to
      (logger.render json_dumps py_str v) (max_len - 3))).
    rewrite len_slice_to.
    replace (0 <=? max_len - 3) with true by (symmetry; apply Z.leb_le; lia).
    change (Z.of_nat (String.length "...")) with 3. lia.
Qed.

Lemma truncate_value_within_max_len_witness :
  Py.len (logger._truncate_value (fun _ => None) (fun _ => "")
            (Py.PStr "structured logging") 10) <= 10.
Proof.
  apply (truncate_value_within_max_len (fun _ => None) (fun _ => "")
           (Py.PStr "structured logging") 10).
  lia.
Defined.

(** X2. Below 3 the bound is lost: for every [max_len] smaller than 3, a
    rendering longer than [max_len] is turned into a value that is longer
    than [max_len] too (what is left of it, then the three dots). *)
Theorem truncate_value_small_max_len (json_dumps : Py.pyval -> option string)
  (py_str : Py.pyval -> string) (v : Py.pyval) (max_len : Z) :
  max_len < 3 ->
  Py.len (logger.render json_dumps py_str v) > max_len ->
  Py.len (logger._truncate_value json_dumps py_str v max_len)
  = Z.max 0 (Py.len (logger.render json_dumps py_str v) + max_len - 3) + 3
  /\ Py.len (logger._truncate_value json_dumps py_str v max_len) > max_len.
Proof.
  intros H G.
  assert (E : Py.len (logger._truncate_value json_dumps py_str v max_len)
              = Z.max 0 (Py.len (logger.render json_dumps py_str v) + max_len - 3) + 3).
  { rewrite truncate_value_cut by exact G.
    unfold Py.len at 1. rewrite length_append, Nat2Z.inj_add.
    fold (Py.len (Py.slice_to (logger.render json_dumps py_str v) (max_len - 3))).
    rewrite len_slice_to.
    replace (0 <=? max_len - 3) with false by (symmetry; apply Z.leb_gt; lia).
    change (Z.of_nat (String.length "...")) with 3. lia. }
  split; [exact E | lia].
Qed.

Lemma truncate_value_small_max_len_witness :
  Py.len (logger._truncate_value (fun _ => None) (fun _ => "") (Py.PStr "abcdef") 2)
  = Z.max 0 (Py.len (logger.render (fun _ => None) (fun _ => "") (Py.PStr "abcdef"))
             + 2 - 3) + 3
  /\ Py.len (logger._truncate_value (fun _ => None) (fun _ => "") (Py.PStr "abcdef") 2)
     > 2.
Proof.
  apply (truncate_value_small_max_len (fun _ => None) (fun _ => "")
           (Py.PStr "abcdef") 2); [lia | vm_compute; reflexivity].
Defined.

(** ** [_strip_color_tags] *)

Lemma prefix_nil (s : string) : prefix "" s = true.
Proof. now destruct s. Qed.

Lemma str_in_lt_cons (c : ascii) (s : string) :
  Py.str_in "<" (String c s) = (Ascii.eqb c "<" || Py.str_in "<" s)%bool.
Proof.
  cbn [Py.str_in prefix].
  destruct (ascii_dec "<" c) as [<-|ne].
  - now rewrite prefix_nil.
  - destruct (Ascii.eqb_spec c "<") as [->|_]; [now elim ne | reflexivity].
Qed.

Lemma str_in_lt_append (a b : string) :
  Py.str_in "<" (a ++ b) = (Py.str_in "<" a || Py.str_in "<" b)%bool.
Proof.
  induction a as [|c a IH].
  - cbn [append]. now destruct (Py.str_in "<" "") eqn:E.
  - change (String c a ++ b) with (String c (a ++ b)).
    now rewrite !str_in_lt_cons, IH, orb_assoc.
Qed.

Lemma sub_tags_0_cons (c : ascii) (rest : string) :
  logger.sub_tags 0 (String c rest)
  = match logger.tag_at (String c rest) with
    | Some n => logger.sub_tags (Nat.pred n) rest
    | None => String c (logger.sub_tags 0 rest)
    end.
Proof. reflexivity. Qed.

Lemma tag_at_other (c : ascii) (s : string) :
  c <> "<"%char -> logger.tag_at (String c s) = None.
Proof.
  intros ne. unfold logger.tag_at, logger.color_tags. cbn [find prefix].
  destruct (ascii_dec "<" c) as [e|_]; [now elim ne | reflexivity].
Qed.

(** A colour tag at the front is dropped. *)
Lemma strip_tag (t s : string) :
  In t logger.color_tags -> logger.sub_tags 0 (t ++ s) = logger.sub_tags 0 s.
Proof.
  unfold logger.color_tags; cbn [In]; intros H.
  repeat (destruct H as [<-|H]; [destruct s; reflexivity|]).
  contradiction.
Qed.

(** Text without [<] at the front is kept. *)
Lemma strip_plain (a s : string) :
  Py.str_in "<" a = false ->
  logger.sub_tags 0 (a ++ s) = a ++ logger.sub_tags 0 s.
Proof.
  induction a as [|c a IH]; intros H; [reflexivity|].
  rewrite str_in_lt_cons in H. apply orb_false_iff in H as [Hc Ha].
  change (String c a ++ s) with (String c (a ++ s)).
  rewrite sub_tags_0_cons, tag_at_other.
  - cbn [append]. now rewrite IH.
  - intros ->. discriminate.
Qed.

Lemma append_nil_r (s : string) : s ++ "" = s.
Proof. induction s as [|c s IH]; cbn; [reflexivity | now rewrite IH]. Qed.

Lemma append_assoc (a b c : string) : (a ++ b) ++ c = a ++ (b ++ c).
Proof. induction a as [|x a IH]; cbn; [reflexivity | now rewrite IH]. Qed.

(** X3. [_strip_color_tags] returns a text that holds no [<] as it is. *)
Theorem strip_color_tags_plain_text (text : string) :
  Py.str_in "<" text = false -> logger._strip_color_tags text = text.
Proof.
  intros H. unfold logger._strip_color_tags.
  rewrite <- (append_nil_r text) at 1.
  rewrite strip_plain by exact H. apply append_nil_r.
Qed.

Lemma strip_color_tags_plain_text_witness :
  logger._strip_color_tags "INFO | chat:chat:32 - Received chat request"
  = "INFO | chat:chat:32 - Received chat request".
Proof.
  apply (strip_color_tags_plain_text "INFO | chat:chat:32 - Received chat request").
  vm_compute. reflexivity.
Defined.

Lemma sub_tags_length (skip : nat) (s : string) :
  (String.length (logger.sub_tags skip s) <= String.length s)%nat.
Proof.
  revert skip; induction s as [|c s IH]; intros skip; [destruct skip; cbn; lia|].
  destruct skip as [|k].
  - rewrite sub_tags_0_cons.
    destruct (logger.tag_at (String c s)) as [n|].
    + specialize (IH (Nat.pred n)). cbn [String.length]. lia.
    + specialize (IH 0%nat). cbn [String.length]. lia.
  - cbn [logger.sub_tags String.length]. specialize (IH k). lia.
Qed.

(** X4. [_strip_color_tags] only removes: its result is never longer than
    the text it is given. *)
Theorem strip_color_tags_never_longer (text : string) :
  (String.length (logger._strip_color_tags text) <= String.length text)%nat.
Proof. apply sub_tags_length. Qed.

Lemma color_tag_has_lt (t : string) :
  In t logger.color_tags -> Py.str_in "<" t = true.
Proof.
  unfold logger.color_tags; cbn [In]; intros H.
  repeat (destruct H as [<-|H]; [reflexivity|]). contradiction.
Qed.

Lemma is_color_tag_spec (seg : string) :
  is_color_tag seg = true <-> In seg logger.color_tags.
Proof.
  unfold is_color_tag. rewrite existsb_exists. split.
  - intros (t & Ht & E). apply String.eqb_eq in E. now subst.
  - intros H. exists seg. split; [exact H | apply String.eqb_refl].
Qed.

(** X5. On a text made of segments, each a colour tag or a text without
    [<], [_strip_color_tags] returns the segments that are not tags, joined
    in their order. *)
Theorem strip_color_tags_segments (segments : list string) :
  (forall seg, In seg segments ->
               In seg logger.color_tags \/ Py.str_in "<" seg = false) ->
  logger._strip_color_tags (join_segments segments)
  = join_segments (filter (fun seg => negb (is_color_tag seg)) segments).
Proof.
  unfold logger._strip_color_tags.
  induction segments as [|seg segments IH]; intros H; [reflexivity|].
  assert (IH' : logger.sub_tags 0 (join_segments segments)
                = join_segments (filter (fun seg => negb (is_color_tag seg)) segments))
    by (apply IH; intros s Hs; apply H; now right).
  cbn [join_segments fold_right filter].
  fold (join_segments segments).
  destruct (H seg (or_introl eq_refl)) as [T|P].
  - rewrite strip_tag by exact T.
    now rewrite (proj2 (is_color_tag_spec seg) T).
  - rewrite strip_plain by exact P.
    destruct (is_color_tag seg) eqn:E.
    + apply is_color_tag_spec, color_tag_has_lt in E. congruence.
    + cbn [negb join_segments fold_right]. now rewrite IH'.
Qed.

Lemma strip_color_tags_segments_witness :
  logger._strip_color_tags
    (join_segments ["<blue>"; "model"; "</blue>"; "="; "<yellow>"; "gpt"; "</yellow>"])
  = join_segments
      (filter (fun seg => negb (is_color_tag seg))
         ["<blue>"; "model"; "</blue>"; "="; "<yellow>"; "gpt"; "</yellow>"]).
Proof.
  apply (strip_color_tags_segments
           ["<blue>"; "model"; "</blue>"; "="; "<yellow>"; "gpt"; "</yellow>"]).
  intros seg H. cbn [In] in H.
  repeat (destruct H as [<-|H];
          [first [right; reflexivity | left; cbn; tauto]|]).
  contradiction.
Defined.

(** ** [format_record] *)

Lemma replace_char_append (old : ascii) (new a b : string) :
  logger.replace_char old new (a ++ b)
  = logger.replace_char old new a ++ logger.replace_char old new b.
Proof.
  induction a as [|c a IH]; [reflexivity|].
  cbn [append logger.replace_char]. rewrite IH.
  destruct (Ascii.eqb c old); [now rewrite append_assoc | reflexivity].
Qed.

Lemma escape_braces_cons (c : ascii) (s : string) :
  logger.escape_braces (String c s)
  = (if Ascii.eqb c "{" then "{{"
     else if Ascii.eqb c "}" then "}}" else String c "")
    ++ logger.escape_braces s.
Proof.
  unfold logger.escape_braces. cbn [logger.replace_char].
  destruct (Ascii.eqb_spec c "{") as [->|n1].
  - now rewrite replace_char_append.
  - cbn [logger.replace_char]. now destruct (Ascii.eqb c "}").
Qed.

(** X6. The escaping [format_record] applies to keys and values is
    lossless and leaves no brace on its own: read back as the literal text
    of a format string, the escaped text is the text that was escaped. *)
Theorem escape_braces_reads_back (s : string) :
  undouble (logger.escape_braces s) = Some s.
Proof.
  induction s as [|c s IH]; [reflexivity|].
  rewrite escape_braces_cons.
  destruct (Ascii.eqb_spec c "{") as [->|n1];
    [cbn; now rewrite IH|].
  destruct (Ascii.eqb_spec c "}") as [->|n2];
    [cbn; now rewrite IH|].
  cbn [append undouble].
  apply Ascii.eqb_neq in n1, n2. rewrite n1, n2. cbn. now rewrite IH.
Qed.

Lemma format_record_unfold (json_dumps : Py.pyval -> option string)
  (py_str : Py.pyval -> string) (record : logger.Record_) :
  logger.format_record json_dumps py_str record
  = match logger.display_extra
            (match logger.record_extra record with Some d => d | None => [] end) with
    | [] => logger.base_format ++ logger.exception_tail
    | kv :: kvs =>
        (logger.base_format ++ " | "
         ++ String.concat " " (map (logger.extra_part json_dumps py_str) (kv :: kvs)))
        ++ logger.exception_tail
    end.
Proof.
  unfold logger.format_record; cbv zeta.
  destruct (logger.record_extra record) as [[|kv kvs]|]; try reflexivity.
  now destruct (logger.display_extra (kv :: kvs)).
Qed.

(** X7. A record that has no [extra] key, an empty [extra], or only
    fields whose keys start with an underscore is formatted as the bare
    base format followed by the exception field. *)
Theorem format_record_nothing_to_display (json_dumps : Py.pyval -> option string)
  (py_str : Py.pyval -> string) (record : logger.Record_) :
  (forall extra kv, logger.record_extra record = Some extra -> In kv extra ->
                    prefix "_" (fst kv) = true) ->
  logger.format_record json_dumps py_str record
  = logger.base_format ++ logger.exception_tail.
Proof.
  intros H. rewrite format_record_unfold.
  destruct (logger.record_extra record) as [extra|]; [|reflexivity].
  replace (logger.display_extra extra) with (@nil (string * Py.pyval)); [reflexivity|].
  symmetry. unfold logger.display_extra.
  specialize (H extra).
  induction extra as [|kv extra IH]; [reflexivity|].
  cbn [filter]. rewrite (H kv eq_refl (or_introl eq_refl)). cbn [negb].
  apply IH. intros kv' _ Hin. apply H; [reflexivity | now right].
Qed.

Lemma format_record_nothing_to_display_witness :
  logger.format_record (fun _ => None) (fun _ => "")
    {| logger.record_extra := Some [("_internal", Py.PInt 1)] |}
  = logger.base_format ++ logger.exception_tail.
Proof.
  apply (format_record_nothing_to_display (fun _ => None) (fun _ => "")
           {| logger.record_extra := Some [("_internal", Py.PInt 1)] |}).
  intros extra kv E H. injection E as <-.
  simpl in H. destruct H as [<-|[]]. reflexivity.
Defined.

Lemma display_extra_app (a b : Py.dict) :
  logger.display_extra (a ++ b)%list
  = (logger.display_extra a ++ logger.display_extra b)%list.
Proof. apply filter_app. Qed.

(** X8. A field whose key starts with an underscore never shows: wherever
    such a field stands among the extra fields of a record, the record is
    formatted exactly as without it. *)
Theorem format_record_hides_underscore_fields (json_dumps : Py.pyval -> option string)
  (py_str : Py.pyval -> string) (before after : Py.dict) (k : string) (v : Py.pyval) :
  prefix "_" k = true ->
  logger.format_record json_dumps py_str
    {| logger.record_extra := Some (before ++ (k, v) :: after)%list |}
  = logger.format_record json_dumps py_str
      {| logger.record_extra := Some (before ++ after)%list |}.
Proof.
  intros U. rewrite !format_record_unfold. cbn [logger.record_extra].
  rewrite !display_extra_app.
  unfold logger.display_extra at 2. cbn [filter fst]. rewrite U. cbn [negb].
  reflexivity.
Qed.

Lemma format_record_hides_underscore_fields_witness :
  logger.format_record (fun _ => None) (fun _ => "")
    {| logger.record_extra :=
         Some ([("model", Py.PStr "gpt")]
               ++ ("_depth", Py.PStr "hidden") :: [("note", Py.PStr "ok")])%list |}
  = logger.format_record (fun _ => None) (fun _ => "")
      {| logger.record_extra :=
           Some ([("model", Py.PStr "gpt")] ++ [("note", Py.PStr "ok")])%list |}.
Proof.
  apply (format_record_hides_underscore_fields (fun _ => None) (fun _ => "")
           [("model", Py.PStr "gpt")] [("note", Py.PStr "ok")]
           "_depth" (Py.PStr "hidden")).
  reflexivity.
Defined.

(** With its key not starting with an underscore the same field shows. *)
Example format_record_shows_other_fields :
  logger.format_record (fun _ => None) (fun _ => "")
    {| logger.record_extra := Some [("depth", Py.PStr "shown")] |}
  = logger.base_format ++ " | <blue>depth</blue>=<yellow>shown</yellow>"
    ++ logger.exception_tail.
Proof. vm_compute. reflexivity. Qed.

(** ** The format of the plain-text files *)

Lemma str_in_lt_escape (s : string) :
  Py.str_in "<" (logger.escape_braces s) = Py.str_in "<" s.
Proof.
  induction s as [|c s IH]; [reflexivity|].
  rewrite escape_braces_cons, str_in_lt_append, IH, str_in_lt_cons.
  destruct (Ascii.eqb_spec c "{") as [->|_]; [reflexivity|].
  destruct (Ascii.eqb_spec c "}") as [->|_]; [reflexivity|].
  rewrite str_in_lt_cons. now rewrite orb_false_r.
Qed.

Lemma str_in_lt_substring (k : nat) (s : string) :
  Py.str_in "<" s = false -> Py.str_in "<" (substring 0 k s) = false.
Proof.
  revert k; induction s as [|c s IH]; intros [|k] H; try reflexivity.
  cbn [substring]. rewrite str_in_lt_cons in *.
  apply orb_false_iff in H as [Hc Hs]. now rewrite Hc, IH.
Qed.

Lemma str_in_lt_truncate (json_dumps : Py.pyval -> option string)
  (py_str : Py.pyval -> string) (v : Py.pyval) :
  Py.str_in "<" (logger.render json_dumps py_str v) = false ->
  Py.str_in "<" (logger._truncate_value json_dumps py_str v logger.max_len_default)
  = false.
Proof.
  intros H. rewrite truncate_value_unfold.
  destruct (String.length (logger.render json_dumps py_str v) <=? 100)%nat;
    [exact H|].
  now rewrite str_in_lt_append, str_in_lt_substring.
Qed.

Lemma strip_base_format (rest : string) :
  logger.sub_tags 0 (logger.base_format ++ rest)
  = plain_base_format ++ logger.sub_tags 0 rest.
Proof. destruct rest; vm_compute; reflexivity. Qed.

Lemma strip_extra_part (json_dumps : Py.pyval -> option string)
  (py_str : Py.pyval -> string) (kv : string * Py.pyval) (rest : string) :
  Py.str_in "<" (fst kv) = false ->
  Py.str_in "<" (logger.render json_dumps py_str (snd kv)) = false ->
  logger.sub_tags 0 (logger.extra_part json_dumps py_str kv ++ rest)
  = plain_extra_part json_dumps py_str kv ++ logger.sub_tags 0 rest.
Proof.
  intros Hk Hv. unfold logger.extra_part, plain_extra_part; cbv zeta.
  set (k := logger.escape_braces (fst kv)).
  set (v := logger.escape_braces _).
  assert (Lk : Py.str_in "<" k = false) by (unfold k; now rewrite str_in_lt_escape).
  assert (Lv : Py.str_in "<" v = false)
    by (unfold v; rewrite str_in_lt_escape; now apply str_in_lt_truncate).
  change ("</blue>=<yellow>" ++ v ++ "</yellow>")
    with ("</blue>" ++ "=" ++ "<yellow>" ++ v ++ "</yellow>").
  rewrite !append_assoc.
  rewrite (strip_tag "<blue>") by (cbn; tauto).
  rewrite strip_plain by exact Lk.
  rewrite (strip_tag "</blue>") by (cbn; tauto).
  rewrite (strip_plain "=") by reflexivity.
  rewrite (strip_tag "<yellow>") by (cbn; tauto).
  rewrite strip_plain by exact Lv.
  rewrite (strip_tag "</yellow>") by (cbn; tauto).
  reflexivity.
Qed.

Lemma strip_extra_parts (json_dumps : Py.pyval -> option string)
  (py_str : Py.pyval -> string) (kvs : Py.dict) (rest : string) :
  (forall kv, In kv kvs ->
     Py.str_in "<" (fst kv) = false
     /\ Py.str_in "<" (logger.render json_dumps py_str (snd kv)) = false) ->
  logger.sub_tags 0
    (String.concat " " (map (logger.extra_part json_dumps py_str) kvs) ++ rest)
  = String.concat " " (map (plain_extra_part json_dumps py_str) kvs)
    ++ logger.sub_tags 0 rest.
Proof.
  induction kvs as [|kv kvs IH]; intros H; [reflexivity|].
  destruct (H kv (or_introl eq_refl)) as [Hk Hv].
  destruct kvs as [|kv' kvs].
  - cbn [map String.concat]. now apply strip_extra_part.
  - change (String.concat " " (map (logger.extra_part json_dumps py_str) (kv :: kv' :: kvs)))
      with (logger.extra_part json_dumps py_str kv ++ " "
            ++ String.concat " " (map (logger.extra_part json_dumps py_str) (kv' :: kvs))).
    change (String.concat " " (map (plain_extra_part json_dumps py_str) (kv :: kv' :: kvs)))
      with (plain_extra_part json_dumps py_str kv ++ " "
            ++ String.concat " " (map (plain_extra_part json_dumps py_str) (kv' :: kvs))).
    rewrite !append_assoc.
    rewrite strip_extra_part by assumption.
    rewrite (strip_plain " ") by reflexivity.
    rewrite IH by (intros x Hx; apply H; now right).
    reflexivity.
Qed.

Lemma strip_exception_tail :
  logger.sub_tags 0 logger.exception_tail = logger.exception_tail.
Proof. vm_compute. reflexivity. Qed.

(** X9. The plain-text files get the console's format without its colour
    tags and nothing else changed: when no displayed key and no displayed
    value holds a [<], stripping the colour tags of [format_record]'s
    result leaves the plain base, the fields as [key=value], and the
    exception field. *)
Theorem file_format_is_plain_format (json_dumps : Py.pyval -> option string)
  (py_str : Py.pyval -> string) (extra : Py.dict) :
  (forall kv, In kv (logger.display_extra extra) ->
     Py.str_in "<" (fst kv) = false
     /\ Py.str_in "<" (logger.render json_dumps py_str (snd kv)) = false) ->
  logger.file_format json_dumps py_str {| logger.record_extra := Some extra |}
  = plain_format json_dumps py_str extra.
Proof.
  intros H. unfold logger.file_format, logger._strip_color_tags, plain_format.
  rewrite format_record_unfold. cbn [logger.record_extra].
  destruct (logger.display_extra extra) as [|kv kvs].
  - now rewrite strip_base_format, strip_exception_tail.
  - rewrite !append_assoc, strip_base_format.
    rewrite (strip_plain " | ") by reflexivity.
    rewrite strip_extra_parts by exact H.
    now rewrite strip_exception_tail, ?append_assoc.
Qed.

Lemma file_format_is_plain_format_witness :
  logger.file_format (fun _ => None) (fun _ => "")
    {| logger.record_extra :=
         Some [("model", Py.PStr "gpt"); ("_depth", Py.PInt 1); ("note", Py.PStr "{ok}")] |}
  = plain_format (fun _ => None) (fun _ => "")
      [("model", Py.PStr "gpt"); ("_depth", Py.PInt 1); ("note", Py.PStr "{ok}")].
Proof.
  apply (file_format_is_plain_format (fun _ => None) (fun _ => "")
           [("model", Py.PStr "gpt"); ("_depth", Py.PInt 1); ("note", Py.PStr "{ok}")]).
  intros kv H. simpl in H.
  destruct H as [<-|[<-|[]]]; split; reflexivity.
Defined.

Example file_format_line :
  logger.file_format (fun _ => None) (fun _ => "")
    {| logger.record_extra :=
         Some [("model", Py.PStr "gpt"); ("_depth", Py.PInt 1); ("note", Py.PStr "{ok}")] |}
  = "{time:YYYY-MM-DD HH:mm:ss.SSS} | {level: <8} | {name}:{function}:{line} - {message}"
    ++ " | model=gpt note={{ok}}" ++ logger.exception_tail.
Proof. vm_compute. reflexivity. Qed.

(** ** [InterceptHandler.emit] *)

Lemma skip_logging_frames_spec (logging_file : string) (frames : list string) (depth : Z) :
  exists k rest,
    logger.skip_logging_frames logging_file frames depth = (rest, depth + Z.of_nat k)
    /\ frames = (repeat logging_file k ++ rest)%list
    /\ (forall back, rest <> logging_file :: back).
Proof.
  revert depth; induction frames as [|f back IH]; intros depth.
  - exists 0%nat, []. cbn. rewrite Z.add_0_r. repeat split. discriminate.
  - cbn [logger.skip_logging_frames].
    destruct (String.eqb_spec f logging_file) as [->|ne].
    + destruct (IH (depth + 1)) as (k & rest & E & F & N).
      exists (S k), rest. rewrite E. repeat split.
      * f_equal. lia.
      * cbn. now rewrite <- F.
      * exact N.
    + exists 0%nat, (f :: back). rewrite Z.add_0_r. repeat split.
      intros back' [= e _]. now elim ne.
Qed.

(** X10. What [InterceptHandler.emit] forwards is never a record of the
    logger named [uvicorn] below level INFO; it carries the record's
    message and exception information unchanged, and a depth of 2 plus the
    number of frames of the [logging] module at the top of the stack, where
    the walk stops at the first frame that is not one. *)
Theorem intercept_emit_forwarded (loguru_level : string -> option string)
  (logging_file : string) (frames : list string) (record : logger.StdRecord)
  (out : logger.Forwarded) :
  logger.intercept_emit loguru_level logging_file frames record = Some out ->
  ~ (logger.name record = "uvicorn" /\ logger.levelno record < 20)
  /\ logger.forwarded_message out = logger.getMessage record
  /\ logger.forwarded_exception out = logger.exc_info record
  /\ exists k rest,
       frames = (repeat logging_file k ++ rest)%list
       /\ (forall back, rest <> logging_file :: back)
       /\ logger.forwarded_depth out = 2 + Z.of_nat k.
Proof.
  unfold logger.intercept_emit, logger.logging_INFO.
  destruct (String.eqb_spec (logger.name record) "uvicorn") as [En|Nn];
    destruct (Z.ltb_spec (logger.levelno record) 20) as [Ll|Lg];
    cbn [andb]; try discriminate;
    destruct (skip_logging_frames_spec logging_file frames 2) as (k & rest & E & F & N);
    rewrite E; intros [= <-]; cbn;
    (split; [intros [? ?]; first [lia | congruence]|]);
    repeat split; exists k, rest; repeat split; assumption.
Qed.

Lemma intercept_emit_forwarded_witness :
  ~ (logger.name {| logger.name := "uvicorn.error"; logger.levelno := 10;
                    logger.levelname := "DEBUG"; logger.exc_info := None;
                    logger.getMessage := "connection open" |} = "uvicorn"
     /\ 10 < 20)
  /\ logger.forwarded_message
       {| logger.forwarded_level := inl "DEBUG"; logger.forwarded_depth := 4;
          logger.forwarded_exception := None;
          logger.forwarded_message := "connection open" |}
     = "connection open"
  /\ logger.forwarded_exception
       {| logger.forwarded_level := inl "DEBUG"; logger.forwarded_depth := 4;
          logger.forwarded_exception := None;
          logger.forwarded_message := "connection open" |}
     = None
  /\ exists k rest,
       ["logging/__init__.py"; "logging/__init__.py"; "uvicorn/server.py"]
       = (repeat "logging/__init__.py" k ++ rest)%list
       /\ (forall back, rest <> "logging/__init__.py" :: back)
       /\ 4 = 2 + Z.of_nat k.
Proof.
  exact (intercept_emit_forwarded
           (fun n => if String.eqb n "DEBUG" then Some "DEBUG" else None)
           "logging/__init__.py"
           ["logging/__init__.py"; "logging/__init__.py"; "uvicorn/server.py"]
           {| logger.name := "uvicorn.error"; logger.levelno := 10;
              logger.levelname := "DEBUG"; logger.exc_info := None;
              logger.getMessage := "connection open" |}
           {| logger.forwarded_level := inl "DEBUG"; logger.forwarded_depth := 4;
              logger.forwarded_exception := None;
              logger.forwarded_message := "connection open" |}
           eq_refl).
Defined.

(** ** [LoggerWrapper]: bound context *)

Lemma dict_get_set (k k0 : string) (v0 : Py.pyval) (d : Py.dict) :
  logger.dict_get k (logger.dict_set k0 v0 d)
  = if String.eqb k0 k then Some v0 else logger.dict_get k d.
Proof.
  induction d as [|[k' v'] d IH]; cbn [logger.dict_set logger.dict_get].
  - reflexivity.
  - destruct (String.eqb_spec k' k0) as [->|ne]; cbn [logger.dict_get].
    + now destruct (String.eqb k0 k).
    + rewrite IH. destruct (String.eqb_spec k' k) as [->|ne']; [|reflexivity].
      destruct (String.eqb_spec k0 k) as [->|_]; [now elim ne | reflexivity].
Qed.

Lemma keys_dict_set (k : string) (v : Py.pyval) (d : Py.dict) :
  Py.keys (logger.dict_set k v d)
  = if existsb (String.eqb k) (Py.keys d) then Py.keys d
    else (Py.keys d ++ [k])%list.
Proof.
  unfold Py.keys.
  induction d as [|[k' v'] d IH]; cbn [logger.dict_set map fst existsb]; [reflexivity|].
  rewrite (String.eqb_sym k k').
  destruct (String.eqb k' k); cbn [orb map fst]; [reflexivity|].
  rewrite IH. now destruct (existsb (String.eqb k) (map fst d)).
Qed.

Lemma NoDup_dict_set (k : string) (v : Py.pyval) (d : Py.dict) :
  NoDup (Py.keys d) -> NoDup (Py.keys (logger.dict_set k v d)).
Proof.
  intros H. rewrite keys_dict_set.
  destruct (existsb (String.eqb k) (Py.keys d)) eqn:E; [exact H|].
  apply NoDup_app; [exact H | repeat constructor; intros [] | ].
  intros x Hx [e|[]]. subst x.
  assert (existsb (String.eqb k) (Py.keys d) = true)
    by (apply existsb_exists; exists k; split; [exact Hx | apply String.eqb_refl]).
  congruence.
Qed.

Lemma NoDup_dict_update (d kwargs : Py.dict) :
  NoDup (Py.keys d) -> NoDup (Py.keys (logger.dict_update d kwargs)).
Proof.
  unfold logger.dict_update. revert d.
  induction kwargs as [|kv kwargs IH]; intros d H; [exact H|].
  cbn [fold_left]. apply IH, NoDup_dict_set, H.
Qed.

Lemma dict_get_absent (k : string) (d : Py.dict) :
  ~ In k (Py.keys d) -> logger.dict_get k d = None.
Proof.
  unfold Py.keys. induction d as [|[k' v'] d IH]; cbn; intros H; [reflexivity|].
  destruct (String.eqb_spec k' k) as [->|_]; [elim H; now left|].
  apply IH. intros Hin. apply H. now right.
Qed.

(** Binding fields one after the other: a key bound again takes the later
    value. *)
Lemma dict_get_update (k : string) (d kwargs : Py.dict) :
  NoDup (Py.keys kwargs) ->
  logger.dict_get k (logger.dict_update d kwargs)
  = match logger.dict_get k kwargs with
    | Some v => Some v
    | None => logger.dict_get k d
    end.
Proof.
  unfold logger.dict_update. revert d.
  induction kwargs as [|[k0 v0] kwargs IH]; intros d H; [reflexivity|].
  cbn [fold_left fst snd logger.dict_get].
  unfold Py.keys in H; cbn in H. inversion H as [|? ? Hnotin Hnd]; subst.
  rewrite (IH _ Hnd), dict_get_set.
  destruct (String.eqb_spec k0 k) as [->|_]; [|reflexivity].
  now rewrite (dict_get_absent k kwargs Hnotin).
Qed.

Lemma bind_root (context : Py.dict) :
  logger.bind logger.root context
  = if existsb (String.eqb "self") (Py.keys context)
    then Eff.Raise logger.TypeError_self
    else Eff.Return (logger.LoggerWrapper
                       (logger.Loguru (logger.dict_update [] context))).
Proof.
  unfold logger.root. cbn [logger.bind].
  now destruct (existsb (String.eqb "self") (Py.keys context)).
Qed.

(** X11. [get_logger] raises [TypeError] when a field named [self] is to
    be bound, and returns a logger otherwise. A leveled call on that logger
    with extra fields raises [TypeError] and logs nothing when one of them
    is named [self]; otherwise it logs one record, at the level and with
    the message of the call, that carries the bound fields and the extra
    fields, an extra field taking the place of a bound field of the same
    name, and no key twice. *)
Theorem get_logger_fields_on_record (ctx extra : Py.dict) (l : Eff.Level)
  (message : string) (w : Eff.World) (k : string) :
  NoDup (Py.keys ctx) -> NoDup (Py.keys extra) ->
  if existsb (String.eqb "self") (Py.keys ctx)
  then exists e, logger.get_logger ctx = Eff.Raise e /\ Py.type_name e = "TypeError"
  else
    exists lg,
      logger.get_logger ctx = Eff.Return (logger.LoggerWrapper lg)
      /\ if existsb (String.eqb "self") (Py.keys extra)
         then exists e,
                logger.log lg l message (Some extra) w = (Eff.Raise e, w)
                /\ Py.type_name e = "TypeError"
         else exists r,
                logger.log lg l message (Some extra) w
                = (Eff.Return tt,
                   {| Eff.logs := (Eff.logs w ++ [r])%list;
                      Eff.upstream_calls := Eff.upstream_calls w |})
                /\ Eff.level r = l
                /\ Eff.message r = message
                /\ logger.dict_get k (Eff.extra r)
                   = match logger.dict_get k extra with
                     | Some v => Some v
                     | None => logger.dict_get k ctx
                     end
                /\ NoDup (Py.keys (Eff.extra r)).
Proof.
  intros Hc He. unfold logger.get_logger. rewrite bind_root.
  destruct (existsb (String.eqb "self") (Py.keys ctx)) eqn:Sc.
  - exists logger.TypeError_self. split; reflexivity.
  - exists (logger.LoggerWrapper (logger.Loguru (logger.dict_update [] ctx))).
    split; [reflexivity|].
    assert (Nc : NoDup (Py.keys (logger.dict_update [] ctx)))
      by (apply NoDup_dict_update; constructor).
    assert (Gc : logger.dict_get k (logger.dict_update [] ctx) = logger.dict_get k ctx).
    { rewrite dict_get_update by exact Hc. now destruct (logger.dict_get k ctx). }
    destruct (existsb (String.eqb "self") (Py.keys extra)) eqn:Se.
    + exists logger.TypeError_self. split; [|reflexivity].
      unfold logger.log. destruct extra as [|f fs]; [discriminate|].
      cbn [logger.bind]. now rewrite Se.
    + unfold logger.log. destruct extra as [|f fs].
      * eexists. split; [reflexivity|]. cbn [Eff.level Eff.message Eff.extra logger.opt].
        repeat split; [exact Gc | exact Nc].
      * cbn [logger.bind]. rewrite Se.
        eexists. split; [reflexivity|].
        cbn [Eff.level Eff.message Eff.extra logger.opt].
        split; [reflexivity|]. split; [reflexivity|]. split.
        -- rewrite dict_get_update by exact He. now rewrite Gc.
        -- now apply NoDup_dict_update.
Qed.

Lemma get_logger_fields_on_record_witness :
  exists lg,
    logger.get_logger [("user_id", Py.PStr "123")]
    = Eff.Return (logger.LoggerWrapper lg)
    /\ exists r,
         logger.log lg Eff.INFO "Processing request"
           (Some [("request_id", Py.PStr "abc")]) Scenario.fresh
         = (Eff.Return tt,
            {| Eff.logs := (Eff.logs Scenario.fresh ++ [r])%list;
               Eff.upstream_calls := Eff.upstream_calls Scenario.fresh |})
         /\ Eff.level r = Eff.INFO
         /\ Eff.message r = "Processing request"
         /\ logger.dict_get "user_id" (Eff.extra r)
            = match logger.dict_get "user_id" [("request_id", Py.PStr "abc")] with
              | Some v => Some v
              | None => logger.dict_get "user_id" [("user_id", Py.PStr "123")]
              end
         /\ NoDup (Py.keys (Eff.extra r)).
Proof.
  apply (get_logger_fields_on_record [("user_id", Py.PStr "123")]
           [("request_id", Py.PStr "abc")] Eff.INFO "Processing request"
           Scenario.fresh "user_id");
    repeat constructor; simpl; intros [].
Defined.

Example get_logger_self_is_a_type_error :
  logger.get_logger [("self", Py.PInt 1)] = Eff.Raise logger.TypeError_self.
Proof. reflexivity. Qed.

Example extra_self_on_a_bound_logger :
  logger.log (logger.LoggerWrapper (logger.Loguru [("user_id", Py.PStr "123")]))
    Eff.INFO "Processing request" (Some [("self", Py.PInt 1)]) Scenario.fresh
  = (Eff.Raise logger.TypeError_self, Scenario.fresh).
Proof. reflexivity. Qed.

Lemma dict_set_fresh (k : string) (v : Py.pyval) (acc : Py.dict) :
  ~ In k (Py.keys acc) -> logger.dict_set k v acc = (acc ++ [(k, v)])%list.
Proof.
  unfold Py.keys. induction acc as [|[k' v'] acc IH]; intros H; [reflexivity|].
  cbn [logger.dict_set].
  destruct (String.eqb_spec k' k) as [->|_]; [elim H; now left|].
  cbn. f_equal. apply IH. intros Hin. apply H. now right.
Qed.

Lemma dict_update_fresh (acc d : Py.dict) :
  NoDup (Py.keys acc ++ Py.keys d) -> logger.dict_update acc d = (acc ++ d)%list.
Proof.
  unfold logger.dict_update. revert acc.
  induction d as [|[k v] d IH]; intros acc H; cbn [fold_left fst snd].
  - now rewrite app_nil_r.
  - rewrite dict_set_fresh, IH.
    + now rewrite <- app_assoc.
    + unfold Py.keys in *. rewrite map_app, <- app_assoc. exact H.
    + apply NoDup_remove_2 in H. intros Hin. apply H, in_or_app. now left.
Qed.

(** The module's own logger wraps the backend's logger with nothing bound,
    so its methods log the fields of the call, a field named [self]
    included: they are [emit]. *)
Lemma log_root_is_emit (l : Eff.Level) (message : string) (extra : option Py.dict)
  (w : Eff.World) :
  (forall d, extra = Some d -> NoDup (Py.keys d)) ->
  logger.log (logger.Loguru []) l message extra w = logger.emit l message extra w.
Proof.
  intros H. unfold logger.log, logger.emit.
  destruct extra as [[|f fs]|]; try reflexivity.
  cbn [logger.bind logger.opt].
  now rewrite (dict_update_fresh [] (f :: fs) (H _ eq_refl)).
Qed.

(** ** Validated hyperparameters *)

Lemma model_validate_ok (raw : chat_model.RawHyperparams)
  (h : chat_model.ChatModelHyperparams) :
  chat_model.model_validate raw = inr h ->
  within_bounds raw /\ h = given_or_default raw.
Proof.
  unfold chat_model.model_validate.
  destruct (chat_model.validation_errors raw) as [|e es] eqn:E; [|discriminate].
  intros [= <-]. split; [now apply validation_errors_nil | reflexivity].
Qed.

(** X12. Every hyperparameter set that comes out of validation lies
    within the declared bounds, the fields taken from the defaults
    included. *)
Theorem validated_hyperparams_in_bounds (raw : chat_model.RawHyperparams)
  (h : chat_model.ChatModelHyperparams) :
  chat_model.model_validate raw = inr h -> in_declared_bounds h.
Proof.
  intros V. apply model_validate_ok in V as [B ->].
  destruct B as (Bt & Bm & Bp & Bf & Bq & Bn & Bl).
  unfold in_declared_bounds, given_or_default; cbn.
  refine (conj _ (conj _ (conj _ (conj _ (conj _ (conj _ _)))))).
  - destruct (chat_model.raw_temperature raw) as [x|];
      [apply (Bt x eq_refl) | cbn; unfold Qle; cbn; lia].
  - destruct (chat_model.raw_max_tokens raw) as [x|];
      [apply (Bm x eq_refl) | cbn; lia].
  - destruct (chat_model.raw_top_p raw) as [x|];
      [apply (Bp x eq_refl) | cbn; unfold Qle; cbn; lia].
  - destruct (chat_model.raw_frequency_penalty raw) as [x|];
      [apply (Bf x eq_refl) | cbn; unfold Qle; cbn; lia].
  - destruct (chat_model.raw_presence_penalty raw) as [x|];
      [apply (Bq x eq_refl) | cbn; unfold Qle; cbn; lia].
  - destruct (chat_model.raw_n raw) as [x|];
      [apply (Bn x eq_refl) | cbn; lia].
  - intros k. destruct (chat_model.raw_logprobs raw) as [[x|]|]; cbn;
      intros [= <-]. apply (Bl _ eq_refl).
Qed.

Lemma validated_hyperparams_in_bounds_witness :
  in_declared_bounds (given_or_default Scenario.no_fields).
Proof.
  exact (validated_hyperparams_in_bounds Scenario.no_fields
           (given_or_default Scenario.no_fields) eq_refl).
Defined.

(** ** The chat route, whatever the upstream does *)

Lemma post_rejected (env : Env.t) (raw : chat.RawChatRequest)
  (errors : list chat_model.ErrorDetails) (w : Eff.World) :
  chat.validate raw = inl errors ->
  chat.post env raw w
  = (fastapi.Responded 422 (fastapi.ValidationErrors errors), w).
Proof. intros V. unfold chat.post. now rewrite V. Qed.

Lemma post_world (env : Env.t) (raw : chat.RawChatRequest)
  (request : chat.ChatRequest) (w : Eff.World) :
  chat.validate raw = inr request ->
  snd (chat.post env raw w) = snd (chat.chat env request w).
Proof.
  intros V. unfold chat.post. rewrite V. now destruct (chat.chat env request w).
Qed.



(** X15. The error-level records of a chat request: none when the
    upstream call returns, and none when it raises something that is not an
    [Exception]; when it raises an [Exception], two, first the service's,
    with the model, the class name and the text of the exception, then the
    handler's, with the message sent in the response. *)
Theorem handler_error_records (env : Env.t) (request : chat.ChatRequest) (w : Eff.World) :
  Eff.at_level Eff.ERROR (Eff.logs (snd (chat.chat env request w)))
  = (Eff.at_level Eff.ERROR (Eff.logs w)
     ++ match upstream_answer env request with
        | Eff.Return _ => []
        | Eff.Raise e =>
            if Py.isinstance_Exception e
            then [service_failed_record (service_of env request) e;
                  chat_failed_record request
                    (Py.ChatModelError ("Error chatting with model: " ++ Py.str e))]
            else []
        end)%list.
Proof.
  unfold upstream_answer. run_eff. fold (service_of env request).
  destruct (Env.completions_create env _ _) as [c|e];
    [|destruct e as [m|code d|[|] name text]];
    cbn beta iota zeta delta [fst snd Eff.logs Eff.upstream_calls
                              Py.isinstance_Exception Py.isinstance_ChatModelError];
    rewrite !at_level_snoc; cbn [Eff.level Eff.level_eqb];
    rewrite ?app_nil_r, <- ?app_assoc; reflexivity.
Qed.

(** X16. The API key stays out of the log and out of the response: under
    two configurations that differ in the key alone, against an upstream
    whose answers do not depend on the key, a chat request has the same
    response and leaves the same world. *)
Theorem api_key_does_not_show (cfg : config.Config)
  (answer : string -> openai.CreateCall -> Eff.outcome openai.ChatCompletion)
  (key1 key2 : string) (raw : chat.RawChatRequest) (w : Eff.World) :
  chat.post (env_with_key cfg answer key1) raw w
  = chat.post (env_with_key cfg answer key2) raw w.
Proof.
  unfold chat.post. destruct (chat.validate raw) as [errors|request]; [reflexivity|].
  run_eff. cbn.
  destruct (answer _ _) as [c|e]; cbn; [reflexivity|].
  destruct e as [m|code d|[|] name text]; reflexivity.
Qed.


(** X18. With a configured default model name that is not empty, no
    upstream call names an empty model: if none did before a chat request,
    none does after it, whatever model name the request gives. *)
Theorem model_name_never_empty (env : Env.t) (raw : chat.RawChatRequest) (w : Eff.World) :
  config.llm_name (Env.config env) <> "" ->
  Forall (fun call => openai.call_model call <> "") (Eff.upstream_calls w) ->
  Forall (fun call => openai.call_model call <> "")
    (Eff.upstream_calls (snd (chat.post env raw w))).
Proof.
  intros D F.
  destruct (chat.validate raw) as [errors|request] eqn:V.
  - now rewrite (post_rejected env raw errors w V).
  - rewrite (post_world env raw request w V), handler_calls.
    apply Forall_app. split; [exact F|]. constructor; [|constructor].
    cbn. destruct (chat.model_name request) as [name|]; [|exact D].
    unfold Py.truthy. destruct (String.eqb_spec name "") as [->|ne]; cbn; assumption.
Qed.

Lemma model_name_never_empty_witness :
  Forall (fun call => openai.call_model call <> "")
    (Eff.upstream_calls
       (snd (chat.post (Scenario.stub (Eff.Return Scenario.hello))
               {| chat.raw_messages := Scenario.hi;
                  chat.raw_hyperparams := None;
                  chat.raw_model_name := Some "" |} Scenario.fresh))).
Proof.
  apply (model_name_never_empty (Scenario.stub (Eff.Return Scenario.hello))
           {| chat.raw_messages := Scenario.hi;
              chat.raw_hyperparams := None;
              chat.raw_model_name := Some "" |} Scenario.fresh).
  - simpl. discriminate.
  - simpl. constructor.
Defined.

(** X19. The handler passes the messages of its request to the upstream
    call as they are and in their order; neither the handler nor the
    service looks at how many there are, so a request with no message makes
    the call with an empty list. *)
Theorem messages_forwarded_verbatim (env : Env.t) (request : chat.ChatRequest)
  (w : Eff.World) :
  exists call,
    Eff.upstream_calls (snd (chat.chat env request w))
    = (Eff.upstream_calls w ++ [call])%list
    /\ openai.call_messages call = chat.messages request.
Proof.
  rewrite handler_calls. eexists. split; reflexivity.
Qed.

Example no_message_is_forwarded :
  map openai.call_messages
    (Eff.upstream_calls
       (snd (chat.chat (Scenario.stub (Eff.Return Scenario.hello))
               {| chat.messages := []; chat.hyperparams := None;
                  chat.model_name := None |} Scenario.fresh)))
  = [[]].
Proof. reflexivity. Qed.

Example messages_keep_their_order :
  map openai.call_messages
    (Eff.upstream_calls
       (snd (chat.chat (Scenario.stub (Eff.Return Scenario.hello))
               {| chat.messages := [openai.SystemMessage "be brief" None;
                                    openai.UserMessage "hi" None;
                                    openai.AssistantMessage "hello" None;
                                    openai.UserMessage "bye" None];
                  chat.hyperparams := None;
                  chat.model_name := None |} Scenario.fresh)))
  = [[openai.SystemMessage "be brief" None; openai.UserMessage "hi" None;
      openai.AssistantMessage "hello" None; openai.UserMessage "bye" None]].
Proof. reflexivity. Qed.

(** X20. The hyperparameters a request gives reach the upstream call as
    its options: for the set [h] that validation makes of an input, the
    call carries, field by field, the value the input gives where it gives
    one and the declared default where it does not (temperature 0.7,
    max_tokens 1000, top_p 1.0, the penalties 0.0, n 1, stop [], stream
    false, logprobs None). *)
Theorem given_hyperparams_reach_the_call (env : Env.t)
  (msgs : list openai.MessageParam) (rh : chat_model.RawHyperparams)
  (h : chat_model.ChatModelHyperparams) (mn : option string) (w : Eff.World) :
  chat_model.model_validate rh = inr h ->
  exists call,
    Eff.upstream_calls
      (snd (chat.chat env {| chat.messages := msgs;
                             chat.hyperparams := Some h;
                             chat.model_name := mn |} w))
    = (Eff.upstream_calls w ++ [call])%list
    /\ openai.call_options call
       = [("temperature",
           Py.PFloat match chat_model.raw_temperature rh with
                     | Some t => t | None => 0.7%Q end);
          ("max_tokens",
           Py.PInt match chat_model.raw_max_tokens rh with
                   | Some m => m | None => 1000 end);
          ("top_p",
           Py.PFloat match chat_model.raw_top_p rh with
                     | Some p => p | None => 1.0%Q end);
          ("frequency_penalty",
           Py.PFloat match chat_model.raw_frequency_penalty rh with
                     | Some f => f | None => 0.0%Q end);
          ("presence_penalty",
           Py.PFloat match chat_model.raw_presence_penalty rh with
                     | Some f => f | None => 0.0%Q end);
          ("n",
           Py.PInt match chat_model.raw_n rh with
                   | Some k => k | None => 1 end);
          ("stop",
           Py.PList (map Py.PStr match chat_model.raw_stop rh with
                                 | Some l => l | None => [] end));
          ("stream",
           Py.PBool match chat_model.raw_stream rh with
                    | Some b => b | None => false end);
          ("logprobs",
           match chat_model.raw_logprobs rh with
           | Some (Some k) => Py.PInt k
           | Some None => Py.PNone
           | None => Py.PNone
           end)].
Proof.
  intros V. apply model_validate_ok in V as [_ ->].
  rewrite handler_calls. eexists. split; [reflexivity|].
  cbn [openai.call_options chat_model.ChatModelService.create_arguments
       chat_model.ChatModelService.options chat_model.ChatModelService.attributes
       chat_model.hyperparams service_of chat.hyperparams].
  unfold chat_model.model_dump, given_or_default, chat_model.with_default.
  cbn [chat_model.temperature chat_model.max_tokens chat_model.top_p
       chat_model.frequency_penalty chat_model.presence_penalty chat_model.n
       chat_model.stop chat_model.stream chat_model.logprobs].
  destruct (chat_model.raw_temperature rh), (chat_model.raw_max_tokens rh),
    (chat_model.raw_top_p rh), (chat_model.raw_frequency_penalty rh),
    (chat_model.raw_presence_penalty rh), (chat_model.raw_n rh),
    (chat_model.raw_stop rh), (chat_model.raw_stream rh),
    (chat_model.raw_logprobs rh) as [[k|]|]; reflexivity.
Qed.

Lemma given_hyperparams_reach_the_call_witness :
  exists call,
    Eff.upstream_calls
      (snd (chat.chat (Scenario.stub (Eff.Return Scenario.hello))
              {| chat.messages := Scenario.hi;
                 chat.hyperparams := Some Scenario.cool_validated;
                 chat.model_name := None |} Scenario.fresh))
    = (Eff.upstream_calls Scenario.fresh ++ [call])%list
    /\ openai.call_options call
       = [("temperature", Py.PFloat 0.25); ("max_tokens", Py.PInt 5);
          ("top_p", Py.PFloat 1.0); ("frequency_penalty", Py.PFloat 0.0);
          ("presence_penalty", Py.PFloat 0.5); ("n", Py.PInt 3);
          ("stop", Py.PList [Py.PStr "END"]); ("stream", Py.PBool false);
          ("logprobs", Py.PInt 2)].
Proof.
  exact (given_hyperparams_reach_the_call (Scenario.stub (Eff.Return Scenario.hello))
           Scenario.hi Scenario.cool Scenario.cool_validated None Scenario.fresh
           eq_refl).
Defined.
